(** * SafeContentText: thresholding and request plumbing of the two front ends

    A shallow embedding of [SafeTextContentApi.py] (the HTTP API) and
    [bad_text_detector.py] (the command line tool).  The zero-shot model
    is an oracle; everything around it (parameter binding, input
    collection, thresholding, error handling) is translated from the
    Python source. *)

From Stdlib Require Import String Ascii List Bool Arith PeanoNat Lia.
From Stdlib Require Import QArith.
Import ListNotations.
Local Open Scope string_scope.
Local Open Scope list_scope.
Local Open Scope nat_scope.

Set Implicit Arguments.

(** ** Python strings

    A Python [str] is held as a Rocq [string] carrying its UTF-8 bytes.
    The byte sequences tested below occur in well-formed UTF-8 only as
    the code points they stand for. *)

Module Py.

Definition LF : ascii := ascii_of_nat 10.
Definition CR : ascii := ascii_of_nat 13.

Definition byte_is (n : nat) (c : ascii) : bool := nat_of_ascii c =? n.

Definition byte_in (lo hi : nat) (c : ascii) : bool :=
  (lo <=? nat_of_ascii c) && (nat_of_ascii c <=? hi).

(** [truthy s]: the truth value of a string, [if s:]. *)
Definition truthy (s : string) : bool :=
  match s with EmptyString => false | String _ _ => true end.

(** [c in s] for a one-character needle. *)
Fixpoint contains (c : ascii) (s : string) : bool :=
  match s with
  | EmptyString => false
  | String d r => Ascii.eqb d c || contains c r
  end.

Definition snoc (s : string) (c : ascii) : string := s ++ String c EmptyString.

(** One-byte line boundaries of [str.splitlines] other than CR:
    LF, VT, FF, FS, GS, RS. *)
Definition line_break1 (c : ascii) : bool :=
  byte_is 10 c || byte_is 11 c || byte_is 12 c ||
  byte_is 28 c || byte_is 29 c || byte_is 30 c.

(** [str.splitlines()], without [keepends].  [cur] is the line being
    read.  CR LF is one boundary; U+0085 (C2 85), U+2028 and U+2029
    (E2 80 A8, E2 80 A9) are boundaries; a boundary at the very end opens
    no further line. *)
Fixpoint splitlines_from (cur s : string) : list string :=
  match s with
  | EmptyString => if truthy cur then [cur] else []
  | String c r =>
      if byte_is 13 c then
        match r with
        | String c1 r1 =>
            if byte_is 10 c1 then cur :: splitlines_from "" r1
            else cur :: splitlines_from "" r
        | EmptyString => [cur]
        end
      else if line_break1 c then cur :: splitlines_from "" r
      else if byte_is 194 c then
        match r with
        | String c1 r1 =>
            if byte_is 133 c1 then cur :: splitlines_from "" r1
            else splitlines_from (snoc cur c) r
        | EmptyString => [snoc cur c]
        end
      else if byte_is 226 c then
        match r with
        | String c1 (String c2 r2) =>
            if byte_is 128 c1 && (byte_is 168 c2 || byte_is 169 c2)
            then cur :: splitlines_from "" r2
            else splitlines_from (snoc cur c) r
        | _ => splitlines_from (snoc cur c) r
        end
      else splitlines_from (snoc cur c) r
  end.

Definition splitlines (s : string) : list string := splitlines_from "" s.

(** A line of ordinary text: no byte that is, or could begin, a line
    boundary. *)
Fixpoint plain (s : string) : bool :=
  match s with
  | EmptyString => true
  | String c r =>
      negb (byte_is 13 c || line_break1 c || byte_is 194 c || byte_is 226 c) && plain r
  end.

(** ["\n".join(lines)] *)
Definition join_lines (lines : list string) : string :=
  String.concat (String LF EmptyString) lines.

(** [str.split(sep)] for a one-character separator: always at least one
    piece. *)
Fixpoint split_from (sep : ascii) (cur s : string) : list string :=
  match s with
  | EmptyString => [cur]
  | String c r =>
      if Ascii.eqb c sep then cur :: split_from sep "" r
      else split_from sep (snoc cur c) r
  end.

Definition split (sep : ascii) (s : string) : list string := split_from sep "" s.

(** White space of [str.strip()]: the one-byte characters, and the
    length in bytes of a white-space code point that starts the string
    (0 when there is none). *)
Definition space1 (c : ascii) : bool :=
  byte_in 9 13 c || byte_in 28 32 c.

Definition leading_space (s : string) : nat :=
  match s with
  | String c r =>
      if space1 c then 1
      else match r with
           | String c1 r1 =>
               if byte_is 194 c && (byte_is 133 c1 || byte_is 160 c1) then 2
               else match r1 with
                    | String c2 _ =>
                        if byte_is 225 c && byte_is 154 c1 && byte_is 128 c2 then 3
                        else if byte_is 226 c && byte_is 128 c1 &&
                                (byte_in 128 138 c2 || byte_in 168 169 c2 || byte_is 175 c2) then 3
                        else if byte_is 226 c && byte_is 129 c1 && byte_is 159 c2 then 3
                        else if byte_is 227 c && byte_is 128 c1 && byte_is 128 c2 then 3
                        else 0
                    | EmptyString => 0
                    end
           | EmptyString => 0
           end
  | EmptyString => 0
  end.

Fixpoint drop (n : nat) (s : string) : string :=
  match n, s with
  | S m, String _ r => drop m r
  | _, _ => s
  end.

(** [lstrip]: remove leading white space; [fuel] bounds the number of
    code points removed and is taken as the length of the string. *)
Fixpoint lstrip_fuel (fuel : nat) (s : string) : string :=
  match fuel with
  | O => s
  | S f =>
      match leading_space s with
      | O => s
      | n => lstrip_fuel f (drop n s)
      end
  end.

Definition lstrip (s : string) : string := lstrip_fuel (String.length s) s.

Fixpoint rev_from (acc s : string) : string :=
  match s with
  | EmptyString => acc
  | String c r => rev_from (String c acc) r
  end.

Definition rev (s : string) : string := rev_from "" s.

(** The same test on a reversed string: the bytes of a trailing code
    point appear last byte first. *)
Definition trailing_space_rev (s : string) : nat :=
  match s with
  | String c r =>
      if space1 c then 1
      else match r with
           | String c1 r1 =>
               if byte_is 194 c1 && (byte_is 133 c || byte_is 160 c) then 2
               else match r1 with
                    | String c2 _ =>
                        if byte_is 225 c2 && byte_is 154 c1 && byte_is 128 c then 3
                        else if byte_is 226 c2 && byte_is 128 c1 &&
                                (byte_in 128 138 c || byte_in 168 169 c || byte_is 175 c) then 3
                        else if byte_is 226 c2 && byte_is 129 c1 && byte_is 159 c then 3
                        else if byte_is 227 c2 && byte_is 128 c1 && byte_is 128 c then 3
                        else 0
                    | EmptyString => 0
                    end
           | EmptyString => 0
           end
  | EmptyString => 0
  end.

Fixpoint rstrip_rev_fuel (fuel : nat) (s : string) : string :=
  match fuel with
  | O => s
  | S f =>
      match trailing_space_rev s with
      | O => s
      | n => rstrip_rev_fuel f (drop n s)
      end
  end.

Definition rstrip (s : string) : string :=
  rev (rstrip_rev_fuel (String.length s) (rev s)).

Definition strip (s : string) : string := rstrip (lstrip s).

(** [str.lower()] restricted to what [endswith(".txt")] can see: only
    the letters A-Z lower to an ASCII character. *)
Definition lower_char (c : ascii) : ascii :=
  if byte_in 65 90 c then ascii_of_nat (nat_of_ascii c + 32) else c.

Fixpoint lower (s : string) : string :=
  match s with
  | EmptyString => EmptyString
  | String c r => String (lower_char c) (lower r)
  end.

Definition startswith (s p : string) : bool := String.prefix p s.

Definition endswith (s suf : string) : bool := String.prefix (rev suf) (rev s).

(** [os.path.join(a, b)] of [posixpath]. *)
Definition path_join (a b : string) : string :=
  if startswith b "/" then b
  else if negb (truthy a) || endswith a "/" then a ++ b
  else a ++ "/" ++ b.

(** Strict UTF-8 well-formedness, as [bytes.decode("utf-8")] demands:
    no overlong forms, no surrogates, nothing above U+10FFFF. *)
Fixpoint utf8_ok (s : string) : bool :=
  match s with
  | EmptyString => true
  | String c0 r0 =>
      if byte_in 0 127 c0 then utf8_ok r0
      else if byte_in 194 223 c0 then
        match r0 with
        | String c1 r1 => byte_in 128 191 c1 && utf8_ok r1
        | _ => false
        end
      else if byte_in 224 239 c0 then
        match r0 with
        | String c1 (String c2 r2) =>
            (if byte_is 224 c0 then byte_in 160 191 c1
             else if byte_is 237 c0 then byte_in 128 159 c1
             else byte_in 128 191 c1)
            && byte_in 128 191 c2 && utf8_ok r2
        | _ => false
        end
      else if byte_in 240 244 c0 then
        match r0 with
        | String c1 (String c2 (String c3 r3)) =>
            (if byte_is 240 c0 then byte_in 144 191 c1
             else if byte_is 244 c0 then byte_in 128 143 c1
             else byte_in 128 191 c1)
            && byte_in 128 191 c2 && byte_in 128 191 c3 && utf8_ok r3
        | _ => false
        end
      else false
  end.

End Py.


(** ** Python dictionaries

    A [dict] keeps its keys in insertion order and holds a key once:
    assigning to a key that is present replaces the value in place. *)

Module Dict.

Section Dict.
Variable V : Type.

Definition t := list (string * V).

Fixpoint set (d : t) (k : string) (v : V) : t :=
  match d with
  | [] => [(k, v)]
  | (k', v') :: d' =>
      if String.eqb k' k then (k', v) :: d' else (k', v') :: set d' k v
  end.

Fixpoint get (d : t) (k : string) : option V :=
  match d with
  | [] => None
  | (k', v') :: d' => if String.eqb k' k then Some v' else get d' k
  end.

Definition keys (d : t) : list string := map fst d.
Definition values (d : t) : list V := map snd d.

(** [dict(pairs)] and [d.update(other)]: one assignment per pair, in
    order. *)
Definition update (d : t) (pairs : list (string * V)) : t :=
  fold_left (fun acc kv => set acc (fst kv) (snd kv)) pairs d.

Definition of_pairs (pairs : list (string * V)) : t := update [] pairs.

(** [{k: v for k, v in d.items() if keep v}]. *)
Definition comprehension (keep : V -> bool) (d : t) : t :=
  fold_left (fun acc kv => if keep (snd kv) then set acc (fst kv) (snd kv) else acc) d [].

(** [bool(d)] *)
Definition truthy (d : t) : bool :=
  match d with [] => false | _ :: _ => true end.

End Dict.

Arguments set {V} d k v.
Arguments get {V} d k.
Arguments keys {V} d.
Arguments values {V} d.
Arguments update {V} d pairs.
Arguments of_pairs {V} pairs.
Arguments comprehension {V} keep d.
Arguments truthy {V} d.

End Dict.

(** ** Exceptions, the outside world, and the monad of both programs *)

Inductive exn : Type :=
| HTTPException (status_code : nat) (detail : string)
| RequestValidationError (fields : list string)
| SystemExit (code : nat)
| PyException (text : string).

(** [except Exception] does not catch [SystemExit]. *)
Definition is_Exception (e : exn) : bool :=
  match e with SystemExit _ => false | _ => true end.

Inductive result (A : Type) : Type :=
| Ok (a : A)
| Raise (e : exn).
Arguments Ok {A} a.
Arguments Raise {A} e.

(** What the model returns for one text: [res["labels"]] and
    [res["scores"]], next to the text itself. *)
Record raw_result (float : Type) : Type := RawResult {
  r_sequence : string;
  r_labels : list string;
  r_scores : list float
}.

(** The pipeline returns one dictionary or a list of them. *)
Inductive raw_output (float : Type) : Type :=
| OneDict (r : raw_result float)
| DictList (rs : list (raw_result float)).

Inductive model_reply (float : Type) : Type :=
| Reply (out : raw_output float)
| ModelError (text : string).

Arguments RawResult {float} r_sequence r_labels r_scores.
Arguments OneDict {float} r.
Arguments DictList {float} rs.
Arguments Reply {float} out.
Arguments ModelError {float} text.

(** [isinstance(raw, dict)] then [raw = [raw]]. *)
Definition as_list {float} (raw : raw_output float) : list (raw_result float) :=
  match raw with
  | OneDict r => [r]
  | DictList rs => rs
  end.

(** Records written by [logging], one constructor per call site, and the
    message of [ArgumentParser.error]. *)
Inductive message (float : Type) : Type :=
| ClassificationError (e : exn)
| UnexpectedError (e : exn)
| CouldNotRead (path : string) (e : exn)
| FileNotFound (path : string)
| DirectoryNotFound (path : string)
| LoadingModel
| Detecting (labels : list string) (threshold : float)
| ResultsWritten (path : string)
| CouldNotWrite (e : exn).

Arguments ClassificationError {float} e.
Arguments UnexpectedError {float} e.
Arguments CouldNotRead {float} path e.
Arguments FileNotFound {float} path.
Arguments DirectoryNotFound {float} path.
Arguments LoadingModel {float}.
Arguments ResultsWritten {float} path.
Arguments CouldNotWrite {float} e.

Inductive err_line (float : Type) : Type :=
| LogInfo (m : message float)
| LogWarning (m : message float)
| LogError (m : message float)
| Usage (text : string).

Arguments Usage {float} text.

(** Lines printed by the command line tool. *)
Inductive out_line (float : Type) : Type :=
| Flagged (source : string)
| LabelLine (label : string) (score : float)
| Safe (source : string).

Arguments Flagged {float} source.
Arguments Safe {float} source.

(** The JSON document of [--output]. *)
Record out_data (float : Type) : Type := OutData {
  o_threshold : float;
  o_labels : list string;
  o_results : list (string * Dict.t float)
}.

Record world (float : Type) : Type := World {
  calls : list (list string * list string);  (* classifier(texts, candidate_labels=labels) *)
  loads : nat;                               (* times pipeline(...) was entered in main *)
  stderr : list (err_line float);
  stdout : list (out_line float);
  written : list (string * out_data float)
}.

Section Monad.
Variable float : Type.

Definition M (A : Type) : Type := world float -> result A * world float.

Definition ret {A} (a : A) : M A := fun w => (Ok a, w).

Definition bind {A B} (m : M A) (k : A -> M B) : M B :=
  fun w => match m w with
           | (Ok a, w') => k a w'
           | (Raise e, w') => (Raise e, w')
           end.

Definition raise {A} (e : exn) : M A := fun w => (Raise e, w).

(** [try: m  except Exception as e: handler e] *)
Definition try_except {A} (m : M A) (handler : exn -> M A) : M A :=
  fun w => match m w with
           | (Ok a, w') => (Ok a, w')
           | (Raise e, w') => if is_Exception e then handler e w' else (Raise e, w')
           end.

Definition log (l : err_line float) : M unit :=
  fun w => (Ok tt, World (calls w) (loads w) (stderr w ++ [l]) (stdout w) (written w)).

Definition print (l : out_line float) : M unit :=
  fun w => (Ok tt, World (calls w) (loads w) (stderr w) (stdout w ++ [l]) (written w)).

Definition record_call (c : list string * list string) (w : world float) : world float :=
  World (calls w ++ [c]) (loads w) (stderr w) (stdout w) (written w).

(** A loop that carries the variables it assigns:
    [for x in xs: acc = body acc x]. *)
Fixpoint foldM {A B} (body : B -> A -> M B) (xs : list A) (acc : B) : M B :=
  match xs with
  | [] => ret acc
  | x :: xs' => bind (body acc x) (fun acc' => foldM body xs' acc')
  end.

(** [for x in xs: body x] *)
Fixpoint for_each {A} (xs : list A) (body : A -> M unit) : M unit :=
  match xs with
  | [] => ret tt
  | x :: xs' => bind (body x) (fun _ => for_each xs' body)
  end.

End Monad.

Arguments ret {float A} a.
Arguments bind {float A B} m k.
Arguments raise {float A} e.
Arguments try_except {float A} m handler.
Arguments log {float} l.
Arguments print {float} l.
Arguments record_call {float} c w.
Arguments for_each {float A} xs body.
Arguments foldM {float A B} body xs acc.

Notation "x <- c1 ;; c2" := (bind c1 (fun x => c2))
  (at level 61, c1 at next level, right associativity).
Notation "c1 ;;; c2" := (bind c1 (fun _ => c2))
  (at level 61, right associativity).

(** ** The model call and the threshold stage, as both programs write them *)

Section Model.
Variable float : Type.

(** Python's [a >= b] on floats. *)
Variable float_ge : float -> float -> bool.

(** The zero-shot pipeline.  Its first argument is the number of calls
    made before this one, so that a reply may differ from call to call. *)
Variable classifier : nat -> list string -> list string -> model_reply float.

(** [classifier(texts, candidate_labels=labels, multi_label=True)] *)
Definition call_classifier (texts labels : list string) : M float (raw_output float) :=
  fun w =>
    match classifier (length (calls w)) texts labels with
    | Reply out => (Ok out, record_call (texts, labels) w)
    | ModelError e => (Raise (PyException e), record_call (texts, labels) w)
    end.

(** [dict(zip(res["labels"], res["scores"]))] *)
Definition label_scores (res : raw_result float) : Dict.t float :=
  Dict.of_pairs (combine (r_labels res) (r_scores res)).

(** [{lbl: sc for lbl, sc in label_scores.items() if sc >= threshold}] *)
Definition at_or_above (threshold : float) (d : Dict.t float) : Dict.t float :=
  Dict.comprehension (fun sc => float_ge sc threshold) d.

End Model.

(** The seven default labels as the specification lists them. *)
Definition seven_labels : list string :=
  [ "profanity"; "hate speech"; "graphic violence"; "self-harm";
    "sexual content"; "insult"; "terrorism" ].

(** ** SafeTextContentApi.py *)

Module Api.

Definition DEFAULT_LABELS : list string :=
  [ "profanity"; "hate speech"; "graphic violence"; "self-harm";
    "sexual content"; "insult"; "terrorism" ].

(** The options read by the handlers.  The routes themselves are taken
    as registered ([ALLOW_GET], [ALLOW_POST], [ALLOW_FILE_UPLOAD]). *)
Record config : Type := Config {
  ENABLE_TEXT_PARAM : bool;
  ENABLE_FAST_DETECT : bool
}.

(** A field of a JSON body: absent, [null], or a value. *)
Inductive field (A : Type) : Type :=
| Omitted
| Null
| Value (a : A).
Arguments Omitted {A}.
Arguments Null {A}.
Arguments Value {A} a.

(** [RELOAD = bool(os.getenv("STC_API_RELOAD", True))]; [getenv] gives
    the value of an environment variable that is set. *)
Definition RELOAD (getenv : string -> option string) : bool :=
  match getenv "STC_API_RELOAD" with
  | Some value => Py.truthy value
  | None => true
  end.

Section Api.
Variable float : Type.
Variable float_ge : float -> float -> bool.
Variables f_zero f_one f_half : float.   (* 0.0, 1.0, 0.5 *)
Variable classifier : nat -> list string -> list string -> model_reply float.
Variable cfg : config.

#[local] Abbreviation M := (M float).

Record DetectRequest : Type := mkDetectRequest {
  texts : list string;
  labels : option (list string);
  threshold : option float
}.

Record DetectResult : Type := mkDetectResult {
  text : string;
  scores : Dict.t float;
  flagged_labels : Dict.t float;
  is_safe : option bool
}.

(** One pass of the loop of [classify_texts]. *)
Definition classify_step (threshold : float) (results : list DetectResult)
    (tr : string * raw_result float) : list DetectResult :=
  let label_scores := label_scores (snd tr) in
  let flagged := at_or_above float_ge threshold label_scores in
  let is_safe :=
    if ENABLE_FAST_DETECT cfg then Some (length flagged =? 0) else None in
  results ++ [mkDetectResult (fst tr) label_scores flagged is_safe].

Definition classify_texts (texts labels : list string) (threshold : float)
  : M (list DetectResult) :=
  raw <- try_except (call_classifier classifier texts labels)
           (fun e => log (LogError (ClassificationError e)) ;;;
                     raise (HTTPException 500 "Internal classification error")) ;;
  let raw := as_list raw in
  ret (fold_left (classify_step threshold) (combine texts raw) []).

(** *** Responses and the three exception handlers *)

Inductive content : Type :=
| DetectResponse (results : list DetectResult)
| ErrorContent (error : string)
| ValidationError (details : list string).

Record JSONResponse : Type := mkJSONResponse {
  status_code : nat;
  body : content
}.

Definition validation_exception_handler (details : list string) : JSONResponse :=
  mkJSONResponse 422 (ValidationError details).

Definition http_exception_handler (status_code : nat) (detail : string) : JSONResponse :=
  mkJSONResponse status_code (ErrorContent detail).

Definition general_exception_handler (exc : exn) : M JSONResponse :=
  log (LogError (UnexpectedError exc)) ;;;
  ret (mkJSONResponse 500 (ErrorContent "Internal Server Error")).

(** A route: the handler's value becomes the response body with status
    200, and an exception goes to the handler registered for it. *)
Definition serve (handler : M (list DetectResult)) : M JSONResponse :=
  fun w =>
    match handler w with
    | (Ok results, w') => (Ok (mkJSONResponse 200 (DetectResponse results)), w')
    | (Raise (RequestValidationError details), w') =>
        (Ok (validation_exception_handler details), w')
    | (Raise (HTTPException sc detail), w') =>
        (Ok (http_exception_handler sc detail), w')
    | (Raise (PyException e), w') => general_exception_handler (PyException e) w'
    | (Raise (SystemExit c), w') => (Raise (SystemExit c), w')
    end.

(** *** Parameter binding: defaults and the declared bounds *)

(** [ge=0.0, le=1.0]; [t <= 1.0] is [1.0 >= t]. *)
Definition in_bounds (t : float) : bool :=
  float_ge t f_zero && float_ge f_one t.

Definition check (errors : list string) : M unit :=
  match errors with
  | [] => ret tt
  | _ :: _ => raise (RequestValidationError errors)
  end.

(** [x or DEFAULT_LABELS] *)
Definition or_default (x : option (list string)) : list string :=
  match x with
  | Some (l :: ls) => l :: ls
  | _ => DEFAULT_LABELS
  end.

(** [POST /detect]: the JSON body and the model [DetectRequest]. *)
Record post_body : Type := mkPostBody {
  b_texts : field (list string);
  b_labels : field (list string);
  b_threshold : field float
}.

Definition parse_DetectRequest (b : post_body) : M DetectRequest :=
  let texts_err := match b_texts b with Value _ => [] | _ => ["texts"] end in
  let threshold_err :=
    match b_threshold b with
    | Value t => if in_bounds t then [] else ["threshold"]
    | _ => []
    end in
  check (texts_err ++ threshold_err) ;;;
  ret (mkDetectRequest
         (match b_texts b with Value ts => ts | _ => [] end)
         (match b_labels b with
          | Omitted => Some DEFAULT_LABELS
          | Null => None
          | Value ls => Some ls
          end)
         (match b_threshold b with
          | Omitted => Some f_half
          | Null => None
          | Value t => Some t
          end)).

Definition detect_post (request : DetectRequest) : M (list DetectResult) :=
  let labels := or_default (labels request) in
  let threshold := match threshold request with Some t => t | None => f_half end in
  classify_texts (texts request) labels threshold.

Definition post_detect (b : post_body) : M JSONResponse :=
  serve (request <- parse_DetectRequest b ;; detect_post request).

(** [GET /detect]: the query string.  A repeatable parameter is the list
    of its values, empty when the parameter does not occur. *)
Record get_query : Type := mkGetQuery {
  q_texts : list string;
  q_text : option string;
  q_labels : list string;
  q_threshold : option float
}.

Definition present (values : list string) : option (list string) :=
  match values with [] => None | _ :: _ => Some values end.

Definition detect_get (texts : option (list string)) (text : option string)
    (labels : option (list string)) (threshold : float) : M (list DetectResult) :=
  texts_list <-
    match text with
    | Some text =>
        if negb (ENABLE_TEXT_PARAM cfg)
        then raise (HTTPException 400 "Single-text query param 'text' not supported")
        else ret [text]
    | None =>
        match texts with
        | Some (t :: ts) => ret (t :: ts)
        | _ => raise (HTTPException 422 "Provide either 'texts' or 'text' query parameter")
        end
    end ;;
  classify_texts texts_list (or_default labels) threshold.

(** Whether the [threshold] parameter of a query or form passes its
    declaration. *)
Definition threshold_accepted (t : option float) : bool :=
  match t with None => true | Some t => in_bounds t end.

Definition threshold_or_default (t : option float) : float :=
  match t with Some t => t | None => f_half end.

Definition labels_or_default (ls : list string) : list string :=
  match ls with [] => DEFAULT_LABELS | _ :: _ => ls end.

Definition bound_threshold (t : option float) : M float :=
  match t with
  | None => ret f_half
  | Some t => check (if in_bounds t then [] else ["threshold"]) ;;; ret t
  end.

Definition get_detect (q : get_query) : M JSONResponse :=
  serve (threshold <- bound_threshold (q_threshold q) ;;
         detect_get (present (q_texts q)) (q_text q)
                    (Some (labels_or_default (q_labels q)))
                    threshold).

(** [POST /detect/file]: the multipart form. *)
Record UploadFile : Type := mkUploadFile {
  content_type : option string;
  data : string
}.

Record file_form : Type := mkFileForm {
  f_file : option UploadFile;
  f_labels : list string;
  f_threshold : option float
}.

(** [(await file.read()).decode("utf-8")] *)
Definition read_decode (file : UploadFile) : M string :=
  if Py.utf8_ok (data file) then ret (data file)
  else raise (PyException "UnicodeDecodeError").

Definition is_text_plain (ct : option string) : bool :=
  match ct with Some s => String.eqb s "text/plain" | None => false end.

(** [content.splitlines() if "\n" in content else [content]] *)
Definition file_texts (content : string) : list string :=
  if Py.contains Py.LF content then Py.splitlines content else [content].

Definition detect_file (file : UploadFile) (labels : list string) (threshold : float)
  : M (list DetectResult) :=
  (if negb (is_text_plain (content_type file))
   then raise (HTTPException 400 "Only text/plain supported.")
   else ret tt) ;;;
  content <- read_decode file ;;
  let texts_list := file_texts content in
  classify_texts texts_list labels threshold.

Definition post_detect_file (f : file_form) : M JSONResponse :=
  serve (check ((match f_file f with Some _ => [] | None => ["file"] end) ++
                (if threshold_accepted (f_threshold f) then [] else ["threshold"])) ;;;
         match f_file f with
         | Some file =>
             detect_file file (labels_or_default (f_labels f))
                         (threshold_or_default (f_threshold f))
         | None => raise (RequestValidationError ["file"])
         end).

(** *** What the loop of [classify_texts] builds, written as a map *)

(** The record built for one text and its raw result. *)
Definition result_of (t : float) (tr : string * raw_result float) : DetectResult :=
  mkDetectResult (fst tr) (label_scores (snd tr))
    (at_or_above float_ge t (label_scores (snd tr)))
    (if ENABLE_FAST_DETECT cfg
     then Some (length (at_or_above float_ge t (label_scores (snd tr))) =? 0)
     else None).

(** The world after a failed model call inside [classify_texts]. *)
Definition after_failure (texts labels : list string) (e : string) (w : world float)
  : world float :=
  World (calls w ++ [(texts, labels)]) (loads w)
        (stderr w ++ [LogError (ClassificationError (PyException e))])
        (stdout w) (written w).

(** An endpoint either answers without calling the model, or its
    answer is that of [classify_texts] on some texts, labels and
    threshold. *)
Definition hands_over (m : M JSONResponse) (w : world float) : Prop :=
  (exists resp w', m w = (Ok resp, w') /\ calls w' = calls w /\
                   stdout w' = stdout w /\ status_code resp <> 200)
  \/ (exists texts labels t, m w = serve (classify_texts texts labels t) w).

(** What every route keeps to: it answers (no exception leaves it) with
    one of four statuses, 200 exactly when the body holds results; it
    calls the model at most once, never without candidate labels; and it
    neither prints nor loads a model. *)
Definition enveloped (w : world float) (r : result JSONResponse * world float) : Prop :=
  exists resp w',
    r = (Ok resp, w') /\
    In (status_code resp) [200; 400; 422; 500] /\
    (status_code resp = 200 <-> exists results, body resp = DetectResponse results) /\
    (calls w' = calls w \/
     exists texts labels, labels <> [] /\ calls w' = calls w ++ [(texts, labels)]) /\
    stdout w' = stdout w /\ loads w' = loads w /\ written w' = written w.

End Api.
End Api.

(** ** bad_text_detector.py *)

Module Cli.

Definition DEFAULT_LABELS : list string :=
  [ "profanity"; "hate speech"; "graphic violence"; "self-harm";
    "sexual content"; "insult"; "terrorism" ].

Inductive io (A : Type) : Type :=
| Done (a : A)
| Failed (e : string).
Arguments Done {A} a.
Arguments Failed {A} e.

(** The operating system as the tool sees it. *)
Record os_env : Type := OsEnv {
  isfile : string -> bool;                       (* os.path.isfile *)
  isdir : string -> bool;                        (* os.path.isdir *)
  read_text : string -> io string;               (* open(path, encoding="utf-8").read() *)
  walk : string -> list (string * list string);  (* os.walk: root and files of each directory *)
  write_text : string -> io unit;                (* open(path, "w") and json.dump *)
  load_model : io unit                           (* pipeline("zero-shot-classification", ...) *)
}.

Section Cli.
Variable float : Type.
Variable float_ge : float -> float -> bool.
Variable f_half : float.   (* 0.5 *)
Variable classifier : nat -> list string -> list string -> model_reply float.
Variable os : os_env.

#[local] Abbreviation M := (M float).

(** The command line: each flag with the value given to it, or absent. *)
Record command_line : Type := mkCommandLine {
  c_text : option string;
  c_file : option string;
  c_dir : option string;
  c_labels : option string;
  c_threshold : option float;
  c_output : option string;
  c_verbose : bool
}.

Record Namespace : Type := mkNamespace {
  text : option string;
  file : option string;
  dir : option string;
  labels : list string;
  threshold : float;
  output : option string;
  verbose : bool
}.

(** [p.parse_args()] with the declared [type] and [default] of each
    argument. *)
Definition parse_args (c : command_line) : Namespace :=
  mkNamespace
    (c_text c) (c_file c) (c_dir c)
    (match c_labels c with
     | Some s => map Py.strip (Py.split "," s)
     | None => DEFAULT_LABELS
     end)
    (match c_threshold c with Some t => t | None => f_half end)
    (c_output c) (c_verbose c).

(** [if args.x:] on an optional string. *)
Definition given (x : option string) : option string :=
  match x with
  | Some s => if Py.truthy s then Some s else None
  | None => None
  end.

Definition sys_exit {A} (code : nat) : M A := raise (SystemExit code).

(** [p.error(message)]: usage and message on the error stream, exit
    status 2. *)
Definition p_error {A} (text : string) : M A :=
  log (Usage text) ;;; raise (SystemExit 2).

Definition open_read (path : string) : M string :=
  match read_text os path with
  | Done content => ret content
  | Failed e => raise (PyException e)
  end.

(** The body of the inner loop of [load_texts_from_dir]. *)
Definition load_one (root : string) (texts : Dict.t string) (name : string)
  : M (Dict.t string) :=
  if Py.endswith (Py.lower name) ".txt" then
    let path := Py.path_join root name in
    try_except (content <- open_read path ;; ret (Dict.set texts path content))
               (fun e => log (LogWarning (CouldNotRead path e)) ;;; ret texts)
  else ret texts.

Definition load_texts_from_dir (directory : string) : M (Dict.t string) :=
  foldM (fun texts rf => foldM (load_one (fst rf)) (snd rf) texts)
        (walk os directory) [].

Definition detect_bad_content (texts labels : list string)
  : M (list (raw_result float)) :=
  results <- call_classifier classifier texts labels ;;
  ret (as_list results).

(** [pipeline(...)] *)
Definition pipeline : M unit :=
  fun w =>
    let w' := World (calls w) (S (loads w)) (stderr w) (stdout w) (written w) in
    match load_model os with
    | Done _ => (Ok tt, w')
    | Failed e => (Raise (PyException e), w')
    end.

(** "Prepare inputs" *)
Definition prepare_inputs (args : Namespace) : M (Dict.t string) :=
  let inputs : Dict.t string := [] in
  inputs <- match given (text args) with
            | Some t => ret (Dict.set inputs "<input>" t)
            | None => ret inputs
            end ;;
  inputs <- match given (file args) with
            | Some f =>
                (if negb (isfile os f)
                 then log (LogError (FileNotFound f)) ;;; sys_exit 1
                 else ret tt) ;;;
                content <- open_read f ;;
                ret (Dict.set inputs f content)
            | None => ret inputs
            end ;;
  inputs <- match given (dir args) with
            | Some d =>
                (if negb (isdir os d)
                 then log (LogError (DirectoryNotFound d)) ;;; sys_exit 1
                 else ret tt) ;;;
                loaded <- load_texts_from_dir d ;;
                ret (Dict.update inputs loaded)
            | None => ret inputs
            end ;;
  ret inputs.

(** "Process and display": one pass of the loop.  [fs] holds the
    dictionaries [flagged] and [safe]. *)
Definition display (threshold : float)
    (fs : Dict.t (Dict.t float) * Dict.t (Dict.t float))
    (sr : (string * string) * raw_result float)
  : M (Dict.t (Dict.t float) * Dict.t (Dict.t float)) :=
  let source := fst (fst sr) in
  let label_scores := label_scores (snd sr) in
  let high := at_or_above float_ge threshold label_scores in
  if Dict.truthy high then
    print (Flagged source) ;;;
    for_each high (fun kv => print (LabelLine (fst kv) (snd kv))) ;;;
    ret (Dict.set (fst fs) source high, snd fs)
  else
    print (Safe source) ;;;
    ret (fst fs, Dict.set (snd fs) source label_scores).

Definition write (path : string) (doc : out_data float) : M unit :=
  fun w =>
    match write_text os path with
    | Done _ => (Ok tt, World (calls w) (loads w) (stderr w) (stdout w)
                              (written w ++ [(path, doc)]))
    | Failed e => (Raise (PyException e), w)
    end.

(** "Optionally save JSON" *)
Definition save (args : Namespace) (inputs : Dict.t string)
    (results : list (raw_result float)) : M unit :=
  match given (output args) with
  | Some path =>
      let out_data :=
        OutData (threshold args) (labels args)
                (map (fun sr => (fst sr, label_scores (snd sr)))
                     (combine (Dict.keys inputs) results)) in
      try_except (write path out_data ;;; log (LogInfo (ResultsWritten path)))
                 (fun e => log (LogError (CouldNotWrite e)))
  | None => ret tt
  end.

(** [main] from "Loading zero-shot classifier model..." to its end; it
    returns the dictionaries [flagged] and [safe] it has built. *)
Definition detect_and_report (args : Namespace) (inputs : Dict.t string)
  : M (Dict.t (Dict.t float) * Dict.t (Dict.t float)) :=
  log (LogInfo LoadingModel) ;;;
  pipeline ;;;
  log (LogInfo (Detecting (labels args) (threshold args))) ;;;
  results <- detect_bad_content (Dict.values inputs) (labels args) ;;
  fs <- foldM (display (threshold args)) (combine inputs results) ([], []) ;;
  save args inputs results ;;;
  ret fs.

(** [main], from the parsed arguments on. *)
Definition run (args : Namespace)
  : M (Dict.t (Dict.t float) * Dict.t (Dict.t float)) :=
  inputs <- prepare_inputs args ;;
  (if negb (Dict.truthy inputs)
   then p_error "Please specify --text, --file, or --dir with at least one input"
   else ret tt) ;;;
  detect_and_report args inputs.

Definition main (c : command_line)
  : M (Dict.t (Dict.t float) * Dict.t (Dict.t float)) :=
  run (parse_args c).

(** *** What the display loop prints, written per source *)

(** The sources named by the [FLAGGED] and [SAFE] lines, in order. *)
Definition sources_printed (lines : list (out_line float)) : list string :=
  flat_map (fun l => match l with
                     | Flagged s => [s]
                     | Safe s => [s]
                     | LabelLine _ _ => []
                     end) lines.

(** The paths [load_texts_from_dir] tries to open, in the order of the
    walk. *)
Definition is_txt (name : string) : bool := Py.endswith (Py.lower name) ".txt".

Definition discovered (directory : string) : list string :=
  flat_map (fun rf => map (Py.path_join (fst rf)) (filter is_txt (snd rf)))
           (walk os directory).

(** Of these, the ones that are read, with their content, and a warning
    for each of the others. *)
Definition readable (paths : list string) : list (string * string) :=
  flat_map (fun p => match read_text os p with
                     | Done content => [(p, content)]
                     | Failed _ => []
                     end) paths.

Definition can_read (p : string) : bool :=
  match read_text os p with Done _ => true | Failed _ => false end.

Definition warnings (paths : list string) : list (err_line float) :=
  flat_map (fun p => match read_text os p with
                     | Done _ => []
                     | Failed e => [LogWarning (CouldNotRead p (PyException e))]
                     end) paths.

Definition with_stderr (w : world float) (lines : list (err_line float)) : world float :=
  World (calls w) (loads w) (stderr w ++ lines) (stdout w) (written w).

(** A computation that touches nothing but the error stream. *)
Definition only_logs {A : Type} (m : M A) : Prop :=
  forall w, exists r lines, m w = (r, with_stderr w lines).

Definition usage_text : string :=
  "Please specify --text, --file, or --dir with at least one input".

Definition with_stdout (w : world float) (lines : list (out_line float)) : world float :=
  World (calls w) (loads w) (stderr w) (stdout w ++ lines) (written w).

(** The dictionaries [flagged] and [safe] after one pass of the display
    loop. *)
Definition filed (t : float) (fs : Dict.t (Dict.t float) * Dict.t (Dict.t float))
    (sr : (string * string) * raw_result float)
  : Dict.t (Dict.t float) * Dict.t (Dict.t float) :=
  match filter (fun kv => float_ge (snd kv) t) (label_scores (snd sr)) with
  | [] => (fst fs, Dict.set (snd fs) (fst (fst sr)) (label_scores (snd sr)))
  | high => (Dict.set (fst fs) (fst (fst sr)) high, snd fs)
  end.

(** The lines printed for one source. *)
Definition block (t : float) (sr : (string * string) * raw_result float)
  : list (out_line float) :=
  match filter (fun kv => float_ge (snd kv) t) (label_scores (snd sr)) with
  | [] => [Safe (fst (fst sr))]
  | high => Flagged (fst (fst sr)) :: map (fun kv => LabelLine (fst kv) (snd kv)) high
  end.

End Cli.
End Cli.

(** ** A concrete setting: rational scores, a toy model, a small file tree *)

Module Sample.

Definition float_ge (a b : Q) : bool := Qle_bool b a.
Definition zero : Q := 0.
Definition one : Q := 1.
Definition half : Q := 1 # 2.

(** Scores "insult" at 0.9 for a text with an exclamation mark and
    everything else at 0.1. *)
Definition score (text label : string) : Q :=
  if Py.contains "!" text && String.eqb label "insult" then 9 # 10 else 1 # 10.

Definition answer (labels : list string) (text : string) : raw_result Q :=
  RawResult text labels (map (score text) labels).

Definition classifier (_ : nat) (texts labels : list string) : model_reply Q :=
  Reply (DictList (map (answer labels) texts)).

(** A model that fails on its first call only. *)
Definition flaky (n : nat) (texts labels : list string) : model_reply Q :=
  match n with
  | O => ModelError "CUDA out of memory"
  | S _ => classifier n texts labels
  end.

Definition two_lines : string :=
  "you fool!" ++ String Py.LF "" ++ "good morning".

(** A directory [d] with [a.txt], [b.TXT], [notes.md], and [c.txt] in
    [d/sub]; [b.TXT] cannot be read.  A directory [e] without any [.txt]
    file, and a file [msg.txt] of two lines. *)
Definition os : Cli.os_env :=
  Cli.OsEnv
    (fun p => String.eqb p "d/a.txt" || String.eqb p "msg.txt")
    (fun p => String.eqb p "d" || String.eqb p "e")
    (fun p => if String.eqb p "d/a.txt" then Cli.Done "you fool!"
              else if String.eqb p "d/sub/c.txt" then Cli.Done "good morning"
              else if String.eqb p "msg.txt" then Cli.Done two_lines
              else Cli.Failed "PermissionError")
    (fun p => if String.eqb p "d"
              then [("d", ["a.txt"; "b.TXT"; "notes.md"]); ("d/sub", ["c.txt"])]
              else if String.eqb p "e" then [("e", ["readme.md"])]
              else [])
    (fun _ => Cli.Done tt)
    (Cli.Done tt).

Definition start : world Q := World [] 0 [] [] [].

Definition on : Api.config := Api.Config true true.
Definition no_text_param : Api.config := Api.Config false true.

Definition texts : list string := ["you fool!"; "good morning"].

Definition first : Api.DetectResult Q :=
  Api.mkDetectResult "you fool!"
    [ ("profanity", 1 # 10); ("hate speech", 1 # 10); ("graphic violence", 1 # 10);
      ("self-harm", 1 # 10); ("sexual content", 1 # 10); ("insult", 9 # 10);
      ("terrorism", 1 # 10) ]
    [ ("insult", 9 # 10) ]
    (Some false).

Definition only_text : Cli.command_line Q :=
  Cli.mkCommandLine (Some "you fool!") None None None None None false.
Definition only_file : Cli.command_line Q :=
  Cli.mkCommandLine None (Some "msg.txt") None None None None false.
Definition only_dir (d : string) : Cli.command_line Q :=
  Cli.mkCommandLine None None (Some d) None None None false.
Definition no_flags : Cli.command_line Q :=
  Cli.mkCommandLine None None None None None None false.

(** A model that answers any batch with a single dictionary, for the
    first text. *)
Definition single (_ : nat) (texts labels : list string) : model_reply Q :=
  Reply (OneDict (answer labels (hd "" texts))).

(** Bytes that are not UTF-8, uploaded as [text/plain]. *)
Definition garbled : Api.UploadFile :=
  Api.mkUploadFile (Some "text/plain") (String (ascii_of_nat 255) "abc").

(** An answer that names "insult" twice. *)
Definition twice : raw_result Q :=
  RawResult "x" ["insult"; "hate speech"; "insult"] [1 # 10; 2 # 10; 9 # 10].

(** A system on which the model cannot be loaded, and one on which
    nothing can be written. *)
Definition offline : Cli.os_env :=
  Cli.OsEnv (Cli.isfile os) (Cli.isdir os) (Cli.read_text os) (Cli.walk os)
            (Cli.write_text os) (Cli.Failed "ConnectionError").

Definition read_only : Cli.os_env :=
  Cli.OsEnv (Cli.isfile os) (Cli.isdir os) (Cli.read_text os) (Cli.walk os)
            (fun _ => Cli.Failed "PermissionError") (Cli.load_model os).

(** A system on which every path is a file, though few can be read. *)
Definition locked : Cli.os_env :=
  Cli.OsEnv (fun _ => true) (Cli.isdir os) (Cli.read_text os) (Cli.walk os)
            (Cli.write_text os) (Cli.load_model os).

Definition picture : Api.UploadFile := Api.mkUploadFile (Some "image/png") "abc".
Definition letter : Api.UploadFile := Api.mkUploadFile (Some "text/plain") two_lines.

End Sample.

(** * Properties *)

(** ** Python strings on examples *)

Example splitlines_ex1 : Py.splitlines (String "a" (String Py.LF (String "b" ""))) = ["a"; "b"].
Proof. reflexivity. Qed.
Example splitlines_ex2 : Py.splitlines (String "a" (String Py.LF "")) = ["a"].
Proof. reflexivity. Qed.
Example splitlines_ex3 : Py.splitlines "" = [].
Proof. reflexivity. Qed.
Example splitlines_ex4 :
  Py.splitlines (String "a" (String Py.CR (String Py.LF (String Py.LF "")))) = ["a"; ""].
Proof. reflexivity. Qed.
Example strip_ex : Py.strip "  hate speech " = "hate speech".
Proof. reflexivity. Qed.
Example split_ex : Py.split "," "a,,b" = ["a"; ""; "b"].
Proof. reflexivity. Qed.
Example endswith_ex : Py.endswith (Py.lower "Notes.TXT") ".txt" = true.
Proof. reflexivity. Qed.
Example join_ex : Py.path_join "d" "a.txt" = "d/a.txt".
Proof. reflexivity. Qed.


(** ** Splitting ordinary text into lines *)

Module PyFacts.
Import Py.

Lemma append_snoc (cur r : string) (c : ascii) : (snoc cur c ++ r = cur ++ String c r)%string.
Proof.
  unfold snoc. induction cur as [|d cur IH]; simpl; [reflexivity|]. now rewrite IH.
Qed.

Lemma append_empty_r (s : string) : (s ++ "" = s)%string.
Proof. induction s as [|c s IH]; simpl; [reflexivity|]. now rewrite IH. Qed.

Lemma splitlines_from_plain (l : string) :
  plain l = true ->
  forall cur rest, splitlines_from cur (l ++ rest) = splitlines_from (cur ++ l) rest.
Proof.
  induction l as [|c l IH]; intros Hplain cur rest.
  - simpl. now rewrite append_empty_r.
  - simpl in Hplain. apply andb_true_iff in Hplain. destruct Hplain as [Hc Hl].
    apply negb_true_iff in Hc.
    apply orb_false_iff in Hc. destruct Hc as [Hc H226].
    apply orb_false_iff in Hc. destruct Hc as [Hc H194].
    apply orb_false_iff in Hc. destruct Hc as [H13 Hbreak].
    change (String c l ++ rest)%string with (String c (l ++ rest)).
    cbn [splitlines_from]. rewrite H13, Hbreak, H194, H226.
    rewrite (IH Hl). now rewrite append_snoc.
Qed.

Lemma splitlines_from_LF (cur rest : string) :
  splitlines_from cur (String LF rest) = cur :: splitlines_from "" rest.
Proof. reflexivity. Qed.

Lemma contains_append (c : ascii) (a b : string) :
  contains c (a ++ b) = contains c a || contains c b.
Proof.
  induction a as [|d a IH]; simpl; [reflexivity|]. now rewrite IH, orb_assoc.
Qed.

Lemma plain_no_LF (l : string) : plain l = true -> contains LF l = false.
Proof.
  induction l as [|c l IH]; simpl; [reflexivity|].
  intros H. apply andb_true_iff in H. destruct H as [Hc Hl].
  rewrite (IH Hl), orb_false_r.
  apply negb_true_iff in Hc.
  destruct (Ascii.eqb_spec c LF) as [->|_]; [discriminate Hc|reflexivity].
Qed.

(** Lines of ordinary text joined by newlines are split back into
    themselves, provided the last one is not empty. *)
Lemma splitlines_join (lines : list string) :
  Forall (fun l => plain l = true) lines ->
  last lines "x" <> "" ->
  splitlines (join_lines lines) = lines.
Proof.
  unfold splitlines, join_lines.
  induction lines as [|l lines IH]; intros Hplain Hlast; [reflexivity|].
  inversion Hplain as [|? ? Hl Hrest]; subst.
  destruct lines as [|l2 lines].
  - simpl in *. rewrite <- (append_empty_r l) at 1.
    rewrite (@splitlines_from_plain l Hl). simpl.
    destruct l; [contradiction|reflexivity].
  - change (String.concat (String LF "") (l :: l2 :: lines))
      with (l ++ String LF (String.concat (String LF "") (l2 :: lines)))%string.
    rewrite (@splitlines_from_plain l Hl). simpl append at 1.
    rewrite splitlines_from_LF. f_equal. now apply IH.
Qed.

Lemma contains_LF_join (l l2 : string) (lines : list string) :
  contains LF (join_lines (l :: l2 :: lines)) = true.
Proof.
  unfold join_lines.
  change (String.concat (String LF "") (l :: l2 :: lines))
    with (l ++ String LF (String.concat (String LF "") (l2 :: lines)))%string.
  rewrite contains_append. simpl.
  destruct (Ascii.eqb_spec LF LF) as [_|H]; [|now elim H].
  simpl. apply orb_true_r.
Qed.

End PyFacts.

(** ** Lists *)

Module ListFacts.

Lemma NoDup_snoc (A : Type) (l : list A) (x : A) :
  NoDup l -> ~ In x l -> NoDup (l ++ [x]).
Proof.
  intros Hl Hx. apply NoDup_rev in Hl.
  rewrite <- (rev_involutive (l ++ [x])). apply NoDup_rev.
  rewrite rev_app_distr. simpl. constructor; [|assumption].
  now rewrite <- in_rev.
Qed.

Lemma app_cons_not_self (A : Type) (l rest : list A) (x : A) : l <> l ++ x :: rest.
Proof.
  intros H. apply (f_equal (@length A)) in H.
  rewrite length_app in H. simpl in H. lia.
Qed.

Lemma combine_fst_prefix (A B : Type) (xs : list A) (ys : list B) :
  map fst (combine xs ys) = firstn (length ys) xs.
Proof.
  revert ys. induction xs as [|x xs IH]; intros [|y ys]; simpl; try reflexivity.
  now rewrite IH.
Qed.

Lemma combine_snd_prefix (A B : Type) (xs : list A) (ys : list B) :
  map snd (combine xs ys) = firstn (length xs) ys.
Proof.
  revert ys. induction xs as [|x xs IH]; intros [|y ys]; simpl; try reflexivity.
  now rewrite IH.
Qed.

Lemma firstn_length_all (A : Type) (xs : list A) (n : nat) :
  n = length xs -> firstn n xs = xs.
Proof. intros ->. apply firstn_all. Qed.

Lemma filter_all (A : Type) (f : A -> bool) (l : list A) :
  (forall x, In x l -> f x = true) -> filter f l = l.
Proof.
  induction l as [|x l IH]; intros H; [reflexivity|].
  simpl. rewrite (H x (or_introl eq_refl)). f_equal.
  apply IH. intros y Hy. apply H. now right.
Qed.

Lemma length_zero_iff (A : Type) (l : list A) : (length l =? 0) = true <-> l = [].
Proof. destruct l; simpl; split; intros H; congruence. Qed.

End ListFacts.

(** ** Dictionaries *)

Module DictFacts.
Import Dict.

Section DictFacts.
Variable V : Type.
Implicit Types (d acc : Dict.t V) (k : string) (v : V) (pairs : list (string * V)) (keep : V -> bool).

Lemma set_fresh d k v : ~ In k (keys d) -> set d k v = d ++ [(k, v)].
Proof.
  induction d as [|[k' v'] d IH]; simpl; intros Hk; [reflexivity|].
  destruct (String.eqb_spec k' k) as [->|_]; [tauto|].
  rewrite IH by tauto. reflexivity.
Qed.

Lemma keys_set_present d k v : In k (keys d) -> keys (set d k v) = keys d.
Proof.
  induction d as [|[k' v'] d IH]; simpl; intros Hk; [tauto|].
  destruct (String.eqb_spec k' k) as [->|Hne]; simpl; [reflexivity|].
  f_equal. apply IH. destruct Hk; [congruence|assumption].
Qed.

Lemma keys_set d k v :
  keys (set d k v) = if in_dec string_dec k (keys d) then keys d else keys d ++ [k].
Proof.
  destruct (in_dec string_dec k (keys d)) as [Hin|Hout].
  - now apply keys_set_present.
  - rewrite set_fresh by assumption. unfold keys. now rewrite map_app.
Qed.


Lemma NoDup_keys_set d k v : NoDup (keys d) -> NoDup (keys (set d k v)).
Proof.
  intros Hd. rewrite keys_set.
  destruct (in_dec string_dec k (keys d)); [assumption|].
  now apply ListFacts.NoDup_snoc.
Qed.

Lemma NoDup_keys_update pairs : forall d,
  NoDup (keys d) -> NoDup (keys (update d pairs)).
Proof.
  unfold update.
  induction pairs as [|[k v] ps IH]; simpl; intros d Hd; [assumption|].
  apply IH. now apply NoDup_keys_set.
Qed.

Lemma NoDup_keys_of_pairs pairs : NoDup (keys (of_pairs pairs)).
Proof. apply NoDup_keys_update. constructor. Qed.

Lemma get_in_keys d k v : get d k = Some v -> In k (keys d).
Proof.
  induction d as [|[k' v'] d IH]; simpl; [discriminate|].
  destruct (String.eqb_spec k' k) as [->|_]; [now left|].
  intros H. right. now apply IH.
Qed.

(** On a dictionary the comprehension is the filter of its items. *)
Lemma comprehension_from keep d : forall acc,
  NoDup (keys (acc ++ d)) ->
  fold_left (fun a kv => if keep (snd kv) then set a (fst kv) (snd kv) else a) d acc
  = acc ++ filter (fun kv => keep (snd kv)) d.
Proof.
  induction d as [|[k v] d IH]; simpl; intros acc Hnd.
  - now rewrite app_nil_r.
  - unfold keys in Hnd. rewrite map_app in Hnd. simpl in Hnd.
    pose proof (NoDup_remove _ _ _ Hnd) as [Hrest Hfresh].
    destruct (keep v).
    + rewrite set_fresh.
      * rewrite IH.
        -- now rewrite <- app_assoc.
        -- unfold keys. rewrite <- app_assoc, map_app. exact Hnd.
      * intros Hin. apply Hfresh. apply in_or_app. now left.
    + apply IH. unfold keys. now rewrite map_app.
Qed.

Lemma comprehension_filter keep d :
  NoDup (keys d) ->
  comprehension keep d = filter (fun kv => keep (snd kv)) d.
Proof.
  intros Hd. unfold comprehension.
  now rewrite comprehension_from.
Qed.

Lemma get_filter keep d k v :
  NoDup (keys d) ->
  get (filter (fun kv => keep (snd kv)) d) k = Some v <->
  get d k = Some v /\ keep v = true.
Proof.
  induction d as [|[k' v'] d IH]; simpl; intros Hd.
  - split; [discriminate|]. intros [H _]. discriminate.
  - inversion Hd as [|? ? Hk' Hd']; subst.
    destruct (keep v') eqn:Ekeep; simpl.
    + destruct (String.eqb_spec k' k) as [->|_].
      * split; [intros H; inversion H; subst; now split|tauto].
      * now apply IH.
    + destruct (String.eqb_spec k' k) as [->|_].
      * split.
        -- intros H. apply IH in H; [|assumption].
           destruct H as [H _]. apply get_in_keys in H. contradiction.
        -- intros [H Hv]. inversion H; subst. congruence.
      * now apply IH.
Qed.

Lemma keys_filter_subset keep d k :
  In k (keys (filter (fun kv => keep (snd kv)) d)) -> In k (keys d).
Proof.
  unfold keys. rewrite !in_map_iff.
  intros [kv [Hk Hin]]. exists kv. split; [assumption|].
  now apply filter_In in Hin.
Qed.

End DictFacts.
End DictFacts.

(** ** The threshold stage *)

Section ThresholdFacts.
Variable float : Type.
Variable float_ge : float -> float -> bool.

Lemma NoDup_keys_label_scores (res : raw_result float) :
  NoDup (Dict.keys (label_scores res)).
Proof. apply DictFacts.NoDup_keys_of_pairs. Qed.

Lemma at_or_above_filter (t : float) (res : raw_result float) :
  at_or_above float_ge t (label_scores res)
  = filter (fun kv => float_ge (snd kv) t) (label_scores res).
Proof.
  unfold at_or_above.
  apply DictFacts.comprehension_filter, NoDup_keys_label_scores.
Qed.

Lemma at_or_above_get (t : float) (res : raw_result float) (l : string) (s : float) :
  Dict.get (at_or_above float_ge t (label_scores res)) l = Some s <->
  Dict.get (label_scores res) l = Some s /\ float_ge s t = true.
Proof.
  rewrite at_or_above_filter.
  apply (DictFacts.get_filter (fun sc => float_ge sc t)), NoDup_keys_label_scores.
Qed.

End ThresholdFacts.

(** ** The API: what [classify_texts] computes *)

Module ApiFacts.
Import Api.

Section ApiFacts.
Variable float : Type.
Variable float_ge : float -> float -> bool.
Variables f_zero f_one f_half : float.
Variable classifier : nat -> list string -> list string -> model_reply float.
Variable cfg : config.

Lemma classify_loop (t : float) (l : list (string * raw_result float)) :
  forall acc, fold_left (classify_step float_ge cfg t) l acc = acc ++ map (result_of float_ge cfg t) l.
Proof.
  induction l as [|tr l IH]; simpl; intros acc.
  - now rewrite app_nil_r.
  - rewrite IH. unfold classify_step, result_of. now rewrite <- app_assoc.
Qed.

Lemma classify_texts_run (texts labels : list string) (t : float) (w : world float) :
  classify_texts float_ge classifier cfg texts labels t w =
  match classifier (length (calls w)) texts labels with
  | Reply out =>
      (Ok (map (result_of float_ge cfg t) (combine texts (as_list out))),
       record_call (texts, labels) w)
  | ModelError e =>
      (Raise (HTTPException 500 "Internal classification error"),
       after_failure texts labels e w)
  end.
Proof.
  unfold classify_texts, bind, try_except, call_classifier.
  destruct (classifier (length (calls w)) texts labels) as [out|e]; simpl.
  - unfold ret. now rewrite classify_loop.
  - reflexivity.
Qed.

Lemma classify_texts_results (texts labels : list string) (t : float)
    (w w' : world float) (results : list (DetectResult float)) :
  classify_texts float_ge classifier cfg texts labels t w = (Ok results, w') ->
  exists out,
    classifier (length (calls w)) texts labels = Reply out /\
    results = map (result_of float_ge cfg t) (combine texts (as_list out)) /\
    w' = record_call (texts, labels) w.
Proof.
  rewrite classify_texts_run.
  destruct (classifier (length (calls w)) texts labels) as [out|e]; intros H.
  - inversion H; subst. now exists out.
  - discriminate.
Qed.


(** *** The handlers behind [serve] *)

#[local] Abbreviation serve := (@Api.serve float).
#[local] Abbreviation classify := (classify_texts float_ge classifier cfg).

Lemma serve_http (sc : nat) (detail : string) (w : world float) :
  serve (raise (HTTPException sc detail)) w
  = (Ok (mkJSONResponse sc (ErrorContent float detail)), w).
Proof. reflexivity. Qed.

Lemma serve_validation (details : list string) (w : world float) :
  serve (raise (RequestValidationError details)) w
  = (Ok (mkJSONResponse 422 (ValidationError float details)), w).
Proof. reflexivity. Qed.

Lemma serve_classify (texts labels : list string) (t : float) (w : world float) :
  serve (classify texts labels t) w =
  match classifier (length (calls w)) texts labels with
  | Reply out =>
      (Ok (mkJSONResponse 200
             (DetectResponse (map (result_of float_ge cfg t) (combine texts (as_list out))))),
       record_call (texts, labels) w)
  | ModelError e =>
      (Ok (mkJSONResponse 500 (ErrorContent float "Internal classification error")),
       after_failure texts labels e w)
  end.
Proof.
  unfold Api.serve. rewrite classify_texts_run.
  now destruct (classifier (length (calls w)) texts labels).
Qed.

Lemma bound_threshold_accepted (t : option float) (w : world float) :
  threshold_accepted float_ge f_zero f_one t = true ->
  bound_threshold float_ge f_zero f_one f_half t w = (Ok (threshold_or_default f_half t), w).
Proof.
  destruct t as [t|]; simpl; [|reflexivity].
  unfold bind, check. now intros ->.
Qed.

Lemma bound_threshold_rejected (t : option float) (w : world float) :
  threshold_accepted float_ge f_zero f_one t = false ->
  bound_threshold float_ge f_zero f_one f_half t w
  = (Raise (RequestValidationError ["threshold"]), w).
Proof.
  destruct t as [t|]; simpl; [|discriminate].
  unfold bind, check. now intros ->.
Qed.

(** What [detect_get] does with its arguments. *)
Lemma detect_get_run (texts : option (list string)) (text : option string)
    (labels : list string) (t : float) (w : world float) :
  detect_get float_ge classifier cfg texts text (Some labels) t w =
  match text with
  | Some s =>
      if ENABLE_TEXT_PARAM cfg then classify [s] (or_default (Some labels)) t w
      else (Raise (HTTPException 400 "Single-text query param 'text' not supported"), w)
  | None =>
      match texts with
      | Some (x :: xs) => classify (x :: xs) (or_default (Some labels)) t w
      | _ => (Raise (HTTPException 422 "Provide either 'texts' or 'text' query parameter"), w)
      end
  end.
Proof.
  unfold detect_get, bind.
  destruct text as [s|].
  - now destruct (ENABLE_TEXT_PARAM cfg).
  - now destruct texts as [[|x xs]|].
Qed.

Lemma serve_bind (A : Type) (m : M float A) (k : A -> M float (list (DetectResult float)))
    (a : A) (w w1 : world float) :
  m w = (Ok a, w1) -> serve (x <- m ;; k x) w = serve (k a) w1.
Proof. intros H. unfold Api.serve, bind. now rewrite H. Qed.

Lemma serve_bind_raise (A : Type) (m : M float A)
    (k : A -> M float (list (DetectResult float))) (e : exn) (w w1 : world float) :
  m w = (Raise e, w1) -> serve (x <- m ;; k x) w = serve (raise e) w1.
Proof. intros H. unfold Api.serve, bind, raise. now rewrite H. Qed.

Lemma get_detect_accepted (q : get_query float) (w : world float) :
  threshold_accepted float_ge f_zero f_one (q_threshold q) = true ->
  get_detect float_ge f_zero f_one f_half classifier cfg q w =
  serve (detect_get float_ge classifier cfg (present (q_texts q)) (q_text q)
           (Some (labels_or_default (q_labels q)))
           (threshold_or_default f_half (q_threshold q))) w.
Proof.
  intros H. unfold get_detect.
  erewrite serve_bind; [reflexivity|now apply bound_threshold_accepted].
Qed.

Lemma get_detect_rejected (q : get_query float) (w : world float) :
  threshold_accepted float_ge f_zero f_one (q_threshold q) = false ->
  get_detect float_ge f_zero f_one f_half classifier cfg q w
  = (Ok (mkJSONResponse 422 (ValidationError float ["threshold"])), w).
Proof.
  intros H. unfold get_detect.
  erewrite serve_bind_raise; [|now apply bound_threshold_rejected].
  apply serve_validation.
Qed.

Lemma labels_or_default_nonempty (ls : list string) :
  or_default (Some (labels_or_default ls)) = labels_or_default ls.
Proof. now destruct ls. Qed.


Lemma detect_file_run (file : UploadFile) (labels : list string) (t : float)
    (w : world float) :
  detect_file float_ge classifier cfg file labels t w =
  if is_text_plain (content_type file) then
    if Py.utf8_ok (data file) then classify (file_texts (data file)) labels t w
    else (Raise (PyException "UnicodeDecodeError"), w)
  else (Raise (HTTPException 400 "Only text/plain supported."), w).
Proof.
  unfold detect_file, bind, read_decode.
  destruct (is_text_plain (content_type file)); [|reflexivity].
  now destruct (Py.utf8_ok (data file)).
Qed.

Lemma post_detect_file_accepted (f : file_form float) (file : UploadFile) (w : world float) :
  f_file f = Some file ->
  threshold_accepted float_ge f_zero f_one (f_threshold f) = true ->
  post_detect_file float_ge f_zero f_one f_half classifier cfg f w =
  serve (detect_file float_ge classifier cfg file (labels_or_default (f_labels f))
           (threshold_or_default f_half (f_threshold f))) w.
Proof.
  intros Hfile Hthr. unfold post_detect_file. rewrite Hfile, Hthr.
  erewrite serve_bind; reflexivity.
Qed.

(** The body of [POST /detect] after validation. *)
Lemma post_detect_run (b : post_body float) (w : world float) :
  post_detect float_ge f_zero f_one f_half classifier cfg b w =
  match b_texts b with
  | Value texts =>
      if match b_threshold b with
         | Value t => in_bounds float_ge f_zero f_one t
         | _ => true
         end
      then serve (classify texts
                    (or_default (match b_labels b with
                                 | Omitted => Some DEFAULT_LABELS
                                 | Null => None
                                 | Value ls => Some ls
                                 end))
                    (match b_threshold b with Value t => t | _ => f_half end)) w
      else (Ok (mkJSONResponse 422 (ValidationError float ["threshold"])), w)
  | _ =>
      (Ok (mkJSONResponse 422
             (ValidationError float
                ("texts" :: match b_threshold b with
                            | Value t => if in_bounds float_ge f_zero f_one t
                                         then [] else ["threshold"]
                            | _ => []
                            end))), w)
  end.
Proof.
  unfold post_detect, parse_DetectRequest, detect_post, Api.serve, bind, check.
  destruct b as [bt bl bth]; simpl.
  destruct bt as [| |texts]; simpl; try reflexivity.
  destruct bth as [| |t]; simpl; try reflexivity.
  now destruct (in_bounds float_ge f_zero f_one t).
Qed.

Lemma get_detect_run (q : get_query float) (w : world float) :
  get_detect float_ge f_zero f_one f_half classifier cfg q w =
  if threshold_accepted float_ge f_zero f_one (q_threshold q) then
    match q_text q with
    | Some s =>
        if ENABLE_TEXT_PARAM cfg
        then serve (classify [s] (labels_or_default (q_labels q))
                      (threshold_or_default f_half (q_threshold q))) w
        else (Ok (mkJSONResponse 400
                    (ErrorContent float "Single-text query param 'text' not supported")), w)
    | None =>
        match q_texts q with
        | [] => (Ok (mkJSONResponse 422
                       (ErrorContent float
                          "Provide either 'texts' or 'text' query parameter")), w)
        | x :: xs => serve (classify (x :: xs) (labels_or_default (q_labels q))
                              (threshold_or_default f_half (q_threshold q))) w
        end
    end
  else (Ok (mkJSONResponse 422 (ValidationError float ["threshold"])), w).
Proof.
  destruct (threshold_accepted float_ge f_zero f_one (q_threshold q)) eqn:Hthr.
  - rewrite (get_detect_accepted q w Hthr).
    unfold Api.serve. rewrite detect_get_run, labels_or_default_nonempty.
    destruct (q_text q) as [s|].
    + now destruct (ENABLE_TEXT_PARAM cfg).
    + now destruct (q_texts q) as [|x xs].
  - apply (get_detect_rejected q w Hthr).
Qed.

Lemma post_detect_file_run (f : file_form float) (w : world float) :
  post_detect_file float_ge f_zero f_one f_half classifier cfg f w =
  match f_file f with
  | None =>
      (Ok (mkJSONResponse 422
             (ValidationError float
                ("file" :: if threshold_accepted float_ge f_zero f_one (f_threshold f)
                           then [] else ["threshold"]))), w)
  | Some file =>
      if threshold_accepted float_ge f_zero f_one (f_threshold f) then
        if is_text_plain (content_type file) then
          if Py.utf8_ok (data file)
          then serve (classify (file_texts (data file)) (labels_or_default (f_labels f))
                        (threshold_or_default f_half (f_threshold f))) w
          else (Ok (mkJSONResponse 500 (ErrorContent float "Internal Server Error")),
                World (calls w) (loads w)
                      (stderr w ++ [LogError (UnexpectedError (PyException "UnicodeDecodeError"))])
                      (stdout w) (written w))
        else (Ok (mkJSONResponse 400 (ErrorContent float "Only text/plain supported.")), w)
      else (Ok (mkJSONResponse 422 (ValidationError float ["threshold"])), w)
  end.
Proof.
  destruct (f_file f) as [file|] eqn:Hfile.
  - destruct (threshold_accepted float_ge f_zero f_one (f_threshold f)) eqn:Hthr.
    + rewrite (post_detect_file_accepted f w Hfile Hthr).
      unfold Api.serve. rewrite detect_file_run.
      destruct (is_text_plain (content_type file)); [|reflexivity].
      now destruct (Py.utf8_ok (data file)).
    + unfold post_detect_file. rewrite Hfile, Hthr. reflexivity.
  - unfold post_detect_file. rewrite Hfile.
    now destruct (threshold_accepted float_ge f_zero f_one (f_threshold f)).
Qed.

(** *** Every endpoint either answers without a model call or hands
    over to [classify_texts] *)

Ltac answers_without_call w' :=
  left; eexists _, w'; split; [reflexivity|];
  split; [reflexivity|]; split; [reflexivity|]; simpl; discriminate.

Ltac hands_over_now := right; do 3 eexists; reflexivity.

Lemma post_detect_hands_over (b : post_body float) (w : world float) :
  hands_over float_ge classifier cfg
    (post_detect float_ge f_zero f_one f_half classifier cfg b) w.
Proof.
  unfold hands_over. rewrite post_detect_run.
  destruct (b_texts b) as [| |texts]; try answers_without_call w.
  destruct (match b_threshold b with Value t => _ | _ => true end);
    [hands_over_now|answers_without_call w].
Qed.

Lemma get_detect_hands_over (q : get_query float) (w : world float) :
  hands_over float_ge classifier cfg
    (get_detect float_ge f_zero f_one f_half classifier cfg q) w.
Proof.
  unfold hands_over. rewrite get_detect_run.
  destruct (threshold_accepted _ _ _ _); [|answers_without_call w].
  destruct (q_text q) as [s|].
  - destruct (ENABLE_TEXT_PARAM cfg); [hands_over_now|answers_without_call w].
  - destruct (q_texts q) as [|x xs]; [answers_without_call w|hands_over_now].
Qed.

Lemma post_detect_file_hands_over (f : file_form float) (w : world float) :
  hands_over float_ge classifier cfg
    (post_detect_file float_ge f_zero f_one f_half classifier cfg f) w.
Proof.
  unfold hands_over. rewrite post_detect_file_run.
  destruct (f_file f) as [file|]; [|answers_without_call w].
  destruct (threshold_accepted _ _ _ _); [|answers_without_call w].
  destruct (is_text_plain _); [|answers_without_call w].
  destruct (Py.utf8_ok _); [hands_over_now|].
  left. eexists _, _. split; [reflexivity|]. simpl. repeat split. discriminate.
Qed.


(** *** A failing model call behind an endpoint *)


Lemma failure_through (m : M float (JSONResponse float)) (w w' : world float)
    (r : result (JSONResponse float)) (texts labels : list string)
    (rest : list (list string * list string)) (e : string) :
  hands_over float_ge classifier cfg m w ->
  m w = (r, w') ->
  calls w' = calls w ++ (texts, labels) :: rest ->
  classifier (length (calls w)) texts labels = ModelError e ->
  r = Ok (mkJSONResponse 500 (ErrorContent float "Internal classification error"))
  /\ rest = [] /\ w' = after_failure texts labels e w.
Proof.
  intros [[resp [w1 [Hm [Hcalls _]]]]|[texts' [labels' [t Hm]]]] Hrun Hnew Hfail.
  - rewrite Hm in Hrun. inversion Hrun; subst.
    rewrite Hnew in Hcalls. symmetry in Hcalls. now apply ListFacts.app_cons_not_self in Hcalls.
  - rewrite Hm, serve_classify in Hrun.
    assert (Hc : calls w' = calls w ++ [(texts', labels')]).
    { destruct (classifier _ texts' labels'); inversion Hrun; subst; reflexivity. }
    rewrite Hnew in Hc. apply app_inv_head in Hc. inversion Hc; subst.
    rewrite Hfail in Hrun. inversion Hrun; subst. now repeat split.
Qed.

End ApiFacts.
End ApiFacts.

(** ** The command line tool: what one pass of the display loop does *)

Module CliFacts.
Import Cli.

Section CliFacts.
Variable float : Type.
Variable float_ge : float -> float -> bool.
Variable f_half : float.
Variable classifier : nat -> list string -> list string -> model_reply float.
Variable os : os_env.

Lemma with_stdout_nil (w : world float) : with_stdout w [] = w.
Proof. destruct w; unfold with_stdout; simpl. now rewrite app_nil_r. Qed.

Lemma with_stdout_app (w : world float) (l1 l2 : list (out_line float)) :
  with_stdout (with_stdout w l1) l2 = with_stdout w (l1 ++ l2).
Proof. unfold with_stdout; simpl. now rewrite app_assoc. Qed.

Lemma print_lines (high : Dict.t float) (w : world float) :
  for_each high (fun kv => print (LabelLine (fst kv) (snd kv))) w
  = (Ok tt, with_stdout w (map (fun kv => LabelLine (fst kv) (snd kv)) high)).
Proof.
  revert w. induction high as [|kv high IH]; intros w; simpl.
  - unfold ret. now rewrite with_stdout_nil.
  - unfold bind, print at 1. rewrite IH.
    f_equal. unfold with_stdout; simpl. now rewrite <- app_assoc.
Qed.

Lemma bind_print (A : Type) (l : out_line float) (k : M float A) (w : world float) :
  (print l ;;; k) w = k (with_stdout w [l]).
Proof. reflexivity. Qed.

Lemma bind_print_lines (A : Type) (high : Dict.t float) (k : M float A) (w : world float) :
  (for_each high (fun kv => print (LabelLine (fst kv) (snd kv))) ;;; k) w
  = k (with_stdout w (map (fun kv => LabelLine (fst kv) (snd kv)) high)).
Proof. unfold bind. now rewrite print_lines. Qed.

Lemma display_run (t : float) (fs : Dict.t (Dict.t float) * Dict.t (Dict.t float))
    (sr : (string * string) * raw_result float) (w : world float) :
  display float_ge t fs sr w =
  (Ok (match filter (fun kv => float_ge (snd kv) t) (label_scores (snd sr)) with
       | [] => (fst fs, Dict.set (snd fs) (fst (fst sr)) (label_scores (snd sr)))
       | high => (Dict.set (fst fs) (fst (fst sr)) high, snd fs)
       end),
   with_stdout w (block float_ge t sr)).
Proof.
  unfold display, block. rewrite at_or_above_filter.
  destruct (filter (fun kv => float_ge (snd kv) t) (label_scores (snd sr)))
    as [|kv high] eqn:E; cbn [Dict.truthy].
  - reflexivity.
  - rewrite bind_print, bind_print_lines, with_stdout_app. reflexivity.
Qed.


(** *** Input collection only writes to the error stream *)

Lemma with_stderr_nil (w : world float) : with_stderr w [] = w.
Proof. destruct w; unfold with_stderr; simpl. now rewrite app_nil_r. Qed.

Lemma with_stderr_app (w : world float) (l1 l2 : list (err_line float)) :
  with_stderr (with_stderr w l1) l2 = with_stderr w (l1 ++ l2).
Proof. unfold with_stderr; simpl. now rewrite app_assoc. Qed.

Lemma only_logs_ret (A : Type) (a : A) : only_logs (ret (float:=float) a).
Proof. intros w. exists (Ok a), []. unfold ret. now rewrite with_stderr_nil. Qed.

Lemma only_logs_raise (A : Type) (e : exn) : only_logs (raise (float:=float) (A:=A) e).
Proof. intros w. exists (Raise e), []. unfold raise. now rewrite with_stderr_nil. Qed.

Lemma only_logs_log (l : err_line float) : only_logs (log l).
Proof. intros w. now exists (Ok tt), [l]. Qed.

Lemma only_logs_bind (A B : Type) (m : M float A) (k : A -> M float B) :
  only_logs m -> (forall a, only_logs (k a)) -> only_logs (x <- m ;; k x).
Proof.
  intros Hm Hk w. unfold bind.
  destruct (Hm w) as [r [l1 ->]]. destruct r as [a|e].
  - destruct (Hk a (with_stderr w l1)) as [r2 [l2 ->]].
    exists r2, (l1 ++ l2). now rewrite with_stderr_app.
  - now exists (Raise e), l1.
Qed.

Lemma only_logs_try_except (A : Type) (m : M float A) (h : exn -> M float A) :
  only_logs m -> (forall e, only_logs (h e)) -> only_logs (try_except m h).
Proof.
  intros Hm Hh w. unfold try_except.
  destruct (Hm w) as [r [l1 ->]]. destruct r as [a|e].
  - now exists (Ok a), l1.
  - destruct (is_Exception e).
    + destruct (Hh e (with_stderr w l1)) as [r2 [l2 ->]].
      exists r2, (l1 ++ l2). now rewrite with_stderr_app.
    + now exists (Raise e), l1.
Qed.

Lemma only_logs_foldM (A B : Type) (body : B -> A -> M float B) (xs : list A) :
  (forall acc x, only_logs (body acc x)) -> forall acc, only_logs (foldM body xs acc).
Proof.
  intros Hbody. induction xs as [|x xs IH]; intros acc; simpl.
  - apply only_logs_ret.
  - apply only_logs_bind; [apply Hbody|]. intros a. apply IH.
Qed.

Lemma only_logs_open_read (path : string) : only_logs (open_read (float:=float) os path).
Proof.
  unfold open_read. destruct (read_text os path).
  - apply only_logs_ret.
  - apply only_logs_raise.
Qed.

Create HintDb only_logs.

#[local] Hint Resolve only_logs_ret only_logs_raise only_logs_log only_logs_open_read
  : only_logs.

Lemma only_logs_load_one (root : string) (texts : Dict.t string) (name : string) :
  only_logs (load_one (float:=float) os root texts name).
Proof.
  unfold load_one. destruct (Py.endswith _ _); [|auto with only_logs].
  apply only_logs_try_except.
  - apply only_logs_bind; auto with only_logs.
  - intros e. apply only_logs_bind; auto with only_logs.
Qed.

Lemma only_logs_load_texts_from_dir (directory : string) :
  only_logs (load_texts_from_dir (float:=float) os directory).
Proof.
  unfold load_texts_from_dir. apply only_logs_foldM.
  intros acc rf. apply only_logs_foldM. intros acc' name. apply only_logs_load_one.
Qed.

Lemma only_logs_prepare_inputs (args : Namespace float) :
  only_logs (prepare_inputs os args).
Proof.
  unfold prepare_inputs.
  apply only_logs_bind; [destruct (given (text args)); auto with only_logs|].
  intros inputs1.
  apply only_logs_bind.
  { destruct (given (file args)) as [f|]; [|auto with only_logs].
    apply only_logs_bind.
    - destruct (negb (isfile os f)); [|auto with only_logs].
      apply only_logs_bind; [auto with only_logs|]. intros _. apply only_logs_raise.
    - intros _. apply only_logs_bind; auto with only_logs. }
  intros inputs2.
  apply only_logs_bind; [|auto with only_logs].
  destruct (given (dir args)) as [d|]; [|auto with only_logs].
  apply only_logs_bind.
  - destruct (negb (isdir os d)); [|auto with only_logs].
    apply only_logs_bind; [auto with only_logs|]. intros _. apply only_logs_raise.
  - intros _. apply only_logs_bind; [apply only_logs_load_texts_from_dir|].
    auto with only_logs.
Qed.


(** *** The directory walk *)

Lemma update_app (V : Type) (d : Dict.t V) (l1 l2 : list (string * V)) :
  Dict.update (Dict.update d l1) l2 = Dict.update d (l1 ++ l2).
Proof. unfold Dict.update. now rewrite fold_left_app. Qed.

Lemma load_one_run (root : string) (texts : Dict.t string) (name : string)
    (w : world float) :
  load_one os root texts name w =
  (Ok (Dict.update texts (readable os (map (Py.path_join root) (filter is_txt [name])))),
   with_stderr w (@warnings float os (map (Py.path_join root) (filter is_txt [name])))).
Proof.
  unfold load_one, readable, warnings. simpl. unfold is_txt.
  destruct (Py.endswith (Py.lower name) ".txt"); simpl.
  - unfold try_except, bind, open_read.
    destruct (read_text os (Py.path_join root name)) as [content|e]; simpl.
    + unfold ret. now rewrite with_stderr_nil.
    + reflexivity.
  - unfold ret. now rewrite with_stderr_nil.
Qed.

Lemma load_names_run (root : string) (names : list string) :
  forall (texts : Dict.t string) (w : world float),
    foldM (load_one os root) names texts w =
    (Ok (Dict.update texts (readable os (map (Py.path_join root) (filter is_txt names)))),
     with_stderr w (@warnings float os (map (Py.path_join root) (filter is_txt names)))).
Proof.
  induction names as [|name names IH]; intros texts w.
  - simpl. unfold ret. now rewrite with_stderr_nil.
  - cbn [foldM]. unfold bind. rewrite load_one_run, IH.
    rewrite update_app, with_stderr_app.
    unfold readable, warnings.
    rewrite <- !flat_map_app, <- !map_app, <- !filter_app. reflexivity.
Qed.

Lemma load_dirs_run (dirs : list (string * list string)) :
  forall (texts : Dict.t string) (w : world float),
    foldM (fun texts rf => foldM (load_one os (fst rf)) (snd rf) texts) dirs texts w =
    (Ok (Dict.update texts
           (readable os
              (flat_map (fun rf => map (Py.path_join (fst rf)) (filter is_txt (snd rf))) dirs))),
     with_stderr w
       (@warnings float os
          (flat_map (fun rf => map (Py.path_join (fst rf)) (filter is_txt (snd rf))) dirs))).
Proof.
  induction dirs as [|rf dirs IH]; intros texts w.
  - simpl. unfold ret. now rewrite with_stderr_nil.
  - cbn [foldM flat_map]. unfold bind. rewrite load_names_run, IH.
    rewrite update_app, with_stderr_app.
    unfold readable, warnings. now rewrite <- !flat_map_app.
Qed.

(** [load_texts_from_dir] always returns: the dictionary of the files
    it could read, and one warning for each it could not. *)
Lemma load_texts_from_dir_run (directory : string) (w : world float) :
  load_texts_from_dir os directory w =
  (Ok (Dict.of_pairs (readable os (discovered os directory))),
   with_stderr w (@warnings float os (discovered os directory))).
Proof. unfold load_texts_from_dir. now rewrite load_dirs_run. Qed.

Lemma keys_readable_subset (paths : list string) (p : string) :
  In p (Dict.keys (readable os paths)) -> In p paths.
Proof.
  unfold Dict.keys, readable. rewrite in_map_iff.
  intros [[k v] [Hk Hin]]. simpl in Hk. subst k.
  apply in_flat_map in Hin. destruct Hin as [q [Hq Hin]].
  destruct (read_text os q); simpl in Hin; [|contradiction].
  destruct Hin as [H|[]]. now inversion H; subst.
Qed.

Lemma NoDup_keys_readable (paths : list string) :
  NoDup paths -> NoDup (Dict.keys (readable os paths)).
Proof.
  induction paths as [|p paths IH]; intros Hnd; [constructor|].
  inversion Hnd as [|? ? Hp Hrest]; subst.
  unfold readable. cbn [flat_map].
  destruct (read_text os p); cbn [app]; [|now apply IH].
  unfold Dict.keys. cbn [map fst]. constructor; [|now apply IH].
  intros Hin. apply Hp. now apply keys_readable_subset.
Qed.

Lemma update_NoDup (V : Type) (pairs : list (string * V)) :
  forall d, NoDup (Dict.keys (d ++ pairs)) -> Dict.update d pairs = d ++ pairs.
Proof.
  unfold Dict.update.
  induction pairs as [|[k v] pairs IH]; intros d Hnd; simpl.
  - now rewrite app_nil_r.
  - unfold Dict.keys in Hnd. rewrite map_app in Hnd. simpl in Hnd.
    pose proof (NoDup_remove_2 _ _ _ Hnd) as Hfresh.
    rewrite DictFacts.set_fresh.
    + rewrite IH; [now rewrite <- app_assoc|].
      unfold Dict.keys. now rewrite <- app_assoc, map_app.
    + intros Hin. apply Hfresh. apply in_or_app. now left.
Qed.

Lemma of_pairs_NoDup (V : Type) (pairs : list (string * V)) :
  NoDup (Dict.keys pairs) -> Dict.of_pairs pairs = pairs.
Proof. intros H. unfold Dict.of_pairs. now rewrite update_NoDup. Qed.


(** *** Input collection, flag by flag *)

Lemma prepare_inputs_none (args : Namespace float) (w : world float) :
  given (text args) = None -> given (file args) = None -> given (dir args) = None ->
  prepare_inputs os args w = (Ok [], w).
Proof.
  intros Ht Hf Hd. unfold prepare_inputs. now rewrite Ht, Hf, Hd.
Qed.

Lemma prepare_inputs_file_only (args : Namespace float) (f content : string)
    (w : world float) :
  given (text args) = None -> given (file args) = Some f -> given (dir args) = None ->
  isfile os f = true -> read_text os f = Done content ->
  prepare_inputs os args w = (Ok [(f, content)], w).
Proof.
  intros Ht Hf Hd Hisfile Hread. unfold prepare_inputs.
  rewrite Ht, Hf, Hd. unfold bind, open_read. rewrite Hisfile, Hread. reflexivity.
Qed.

Lemma prepare_inputs_dir_only (args : Namespace float) (d : string) (w : world float) :
  given (text args) = None -> given (file args) = None -> given (dir args) = Some d ->
  isdir os d = true ->
  prepare_inputs os args w =
  (Ok (Dict.update [] (Dict.of_pairs (readable os (discovered os d)))),
   with_stderr w (@warnings float os (discovered os d))).
Proof.
  intros Ht Hf Hd Hisdir. unfold prepare_inputs.
  rewrite Ht, Hf, Hd. unfold bind. rewrite Hisdir. cbn [negb ret].
  now rewrite load_texts_from_dir_run.
Qed.

(** *** The display loop and the optional JSON file *)

Lemma display_loop (t : float) (l : list ((string * string) * raw_result float)) :
  forall fs w, exists fs',
    foldM (display float_ge t) l fs w =
    (Ok fs', with_stdout w (flat_map (block float_ge t) l)).
Proof.
  induction l as [|sr l IH]; intros fs w.
  - exists fs. simpl. unfold ret. now rewrite with_stdout_nil.
  - cbn [foldM flat_map]. unfold bind. rewrite display_run.
    match goal with
    | |- context [foldM _ l ?a ?b] => destruct (IH a b) as [fs' ->]
    end.
    exists fs'. now rewrite with_stdout_app.
Qed.

Lemma sources_printed_app (l1 l2 : list (out_line float)) :
  sources_printed (l1 ++ l2) = sources_printed l1 ++ sources_printed l2.
Proof. unfold sources_printed. now rewrite flat_map_app. Qed.

Lemma sources_printed_block (t : float) (sr : (string * string) * raw_result float) :
  sources_printed (block float_ge t sr) = [fst (fst sr)].
Proof.
  unfold block.
  destruct (filter _ _) as [|kv high]; [reflexivity|].
  unfold sources_printed. cbn [flat_map app]. f_equal.
  induction (kv :: high) as [|x xs IH]; [reflexivity|]. exact IH.
Qed.

Lemma sources_printed_blocks (t : float) (l : list ((string * string) * raw_result float)) :
  sources_printed (flat_map (block float_ge t) l) = map (fun sr => fst (fst sr)) l.
Proof.
  induction l as [|sr l IH]; [reflexivity|].
  cbn [flat_map map]. now rewrite sources_printed_app, sources_printed_block, IH.
Qed.



(** [save] never raises and leaves calls, loads and printed lines alone. *)
Lemma save_run (args : Namespace float) (inputs : Dict.t string)
    (results : list (raw_result float)) (w : world float) :
  exists w',
    save os args inputs results w = (Ok tt, w') /\
    calls w' = calls w /\ loads w' = loads w /\ stdout w' = stdout w /\
    (given (output args) = None -> w' = w) /\
    (forall path, given (output args) = Some path -> write_text os path = Done tt ->
       written w' = written w ++
         [(path, OutData (threshold args) (labels args)
                   (map (fun sr => (fst sr, label_scores (snd sr)))
                        (combine (Dict.keys inputs) results)))]).
Proof.
  unfold save. destruct (given (output args)) as [path|].
  - unfold try_except, bind, write.
    destruct (write_text os path) as [[]|e] eqn:Ew; simpl.
    + eexists. repeat split; try reflexivity; try discriminate.
      intros p Hp _. now inversion Hp.
    + eexists. repeat split; try reflexivity; try discriminate.
      intros p Hp Hw. inversion Hp; subst. congruence.
  - exists w. repeat split; try reflexivity. discriminate.
Qed.


(** *** From the model load to the end of [main] *)

Lemma detect_and_report_load_failure (args : Namespace float) (inputs : Dict.t string)
    (w : world float) (e : string) :
  load_model os = Failed e ->
  detect_and_report float_ge classifier os args inputs w =
  (Raise (PyException e),
   World (calls w) (S (loads w)) (stderr w ++ [LogInfo LoadingModel])
         (stdout w) (written w)).
Proof.
  intros Hload. unfold detect_and_report, bind, log, pipeline; simpl.
  now rewrite Hload.
Qed.

Lemma detect_and_report_model_failure (args : Namespace float) (inputs : Dict.t string)
    (w : world float) (e : string) :
  load_model os = Done tt ->
  classifier (length (calls w)) (Dict.values inputs) (labels args) = ModelError e ->
  detect_and_report float_ge classifier os args inputs w =
  (Raise (PyException e),
   World (calls w ++ [(Dict.values inputs, labels args)]) (S (loads w))
         (stderr w ++ [LogInfo LoadingModel;
                       LogInfo (Detecting (labels args) (threshold args))])
         (stdout w) (written w)).
Proof.
  intros Hload Hmodel.
  cbv beta iota delta [detect_and_report bind log pipeline detect_bad_content
                          call_classifier].
  cbn [calls loads stderr stdout written]. rewrite Hload.
  cbv beta iota. cbn [calls]. rewrite Hmodel.
  unfold record_call; simpl. now rewrite <- app_assoc.
Qed.

Lemma detect_and_report_reply (args : Namespace float) (inputs : Dict.t string)
    (w : world float) (out : raw_output float) :
  load_model os = Done tt ->
  classifier (length (calls w)) (Dict.values inputs) (labels args) = Reply out ->
  exists fs w',
    detect_and_report float_ge classifier os args inputs w = (Ok fs, w') /\
    calls w' = calls w ++ [(Dict.values inputs, labels args)] /\
    loads w' = S (loads w) /\
    stdout w' = stdout w ++
                flat_map (block float_ge (threshold args)) (combine inputs (as_list out)) /\
    (forall path, given (output args) = Some path -> write_text os path = Done tt ->
       written w' = written w ++
         [(path, OutData (threshold args) (labels args)
                   (map (fun sr => (fst sr, label_scores (snd sr)))
                        (combine (Dict.keys inputs) (as_list out))))]).
Proof.
  intros Hload Hmodel.
  cbv beta iota delta [detect_and_report bind log pipeline detect_bad_content
                          call_classifier].
  cbn [calls loads stderr stdout written]. rewrite Hload.
  cbv beta iota. cbn [calls]. rewrite Hmodel.
  cbv beta iota delta [ret].
  match goal with
  | |- context [foldM _ ?l ?a ?b] =>
      destruct (display_loop (threshold args) l a b) as [fs ->]
  end.
  match goal with
  | |- context [save _ _ _ ?r ?b] =>
      destruct (save_run args inputs r b) as [w' [-> [Hc [Hl [Ho [_ Hw]]]]]]
  end.
  exists fs, w'.
  split; [reflexivity|]. rewrite Hc, Hl, Ho. unfold record_call; simpl.
  repeat split; try reflexivity.
  intros path Hp Hwr. now rewrite (Hw path Hp Hwr).
Qed.

Lemma run_no_inputs (args : Namespace float) (w w1 : world float) :
  prepare_inputs os args w = (Ok [], w1) ->
  run float_ge classifier os args w =
  (Raise (SystemExit 2), with_stderr w1 [Usage usage_text]).
Proof. intros H. unfold run, bind. now rewrite H. Qed.

Lemma run_inputs_raise (args : Namespace float) (w w1 : world float) (e : exn) :
  prepare_inputs os args w = (Raise e, w1) ->
  run float_ge classifier os args w = (Raise e, w1).
Proof. intros H. unfold run, bind. now rewrite H. Qed.

Lemma run_with_inputs (args : Namespace float) (w w1 : world float)
    (inputs : Dict.t string) :
  prepare_inputs os args w = (Ok inputs, w1) -> inputs <> [] ->
  run float_ge classifier os args w =
  detect_and_report float_ge classifier os args inputs w1.
Proof.
  intros H Hne. unfold run, bind. rewrite H.
  destruct inputs as [|kv inputs]; [contradiction|reflexivity].
Qed.


(** [main] stops during input collection or at the usage check, with
    nothing but error-stream output, or goes on with a non-empty
    [inputs]. *)
Lemma run_cases (args : Namespace float) (w : world float) :
  (exists e lines, run float_ge classifier os args w = (Raise e, with_stderr w lines))
  \/ (exists inputs lines,
        inputs <> [] /\
        prepare_inputs os args w = (Ok inputs, with_stderr w lines) /\
        run float_ge classifier os args w =
        detect_and_report float_ge classifier os args inputs (with_stderr w lines)).
Proof.
  destruct (only_logs_prepare_inputs args w) as [[inputs|e] [lines Hprep]].
  - destruct inputs as [|kv inputs].
    + left. exists (SystemExit 2), (lines ++ [Usage usage_text]).
      erewrite run_no_inputs by exact Hprep. now rewrite with_stderr_app.
    + right. exists (kv :: inputs), lines.
      split; [discriminate|]. split; [exact Hprep|].
      apply run_with_inputs; [exact Hprep|discriminate].
  - left. exists e, lines. now apply run_inputs_raise.
Qed.



(** *** Which files end up in the dictionary *)

Lemma keys_readable (paths : list string) :
  Dict.keys (readable os paths) = filter (can_read os) paths.
Proof.
  unfold Dict.keys, readable, can_read.
  induction paths as [|p paths IH]; [reflexivity|].
  cbn [flat_map filter]. rewrite map_app, IH.
  now destruct (read_text os p).
Qed.


Lemma warnings_all_readable (paths : list string) :
  (forall x, In x paths -> can_read os x = true) -> @warnings float os paths = [].
Proof.
  unfold warnings, can_read.
  induction paths as [|p paths IH]; intros H; [reflexivity|].
  cbn [flat_map]. rewrite IH by (intros y Hy; apply H; now right).
  specialize (H p (or_introl eq_refl)). now destruct (read_text os p).
Qed.

Lemma In_readable (paths : list string) (x content : string) :
  In x paths -> read_text os x = Done content -> In (x, content) (readable os paths).
Proof.
  intros Hin Hread. unfold readable. apply in_flat_map.
  exists x. split; [assumption|]. rewrite Hread. now left.
Qed.

Lemma get_In (V : Type) (d : Dict.t V) (k : string) (v : V) :
  NoDup (Dict.keys d) -> In (k, v) d -> Dict.get d k = Some v.
Proof.
  induction d as [|[k' v'] d IH]; intros Hnd Hin; [contradiction|].
  inversion Hnd as [|? ? Hk' Hd]; subst. simpl.
  destruct Hin as [Heq|Hin].
  - inversion Heq; subst. now rewrite String.eqb_refl.
  - destruct (String.eqb_spec k' k) as [->|_]; [|now apply IH].
    elim Hk'. unfold Dict.keys. apply in_map_iff. now exists (k, v).
Qed.

Lemma readable_skip (before after : list string) (p e : string) :
  read_text os p = Failed e ->
  readable os (before ++ p :: after) = readable os (before ++ after).
Proof.
  intros Hp. unfold readable. rewrite !flat_map_app. cbn [flat_map].
  now rewrite Hp.
Qed.

Lemma warnings_one (before after : list string) (p e : string) :
  read_text os p = Failed e ->
  (forall x, In x (before ++ after) -> can_read os x = true) ->
  @warnings float os (before ++ p :: after) = [LogWarning (CouldNotRead p (PyException e))].
Proof.
  intros Hp Hall.
  change (before ++ p :: after) with (before ++ [p] ++ after).
  unfold warnings. rewrite !flat_map_app. fold (@warnings float os before).
  fold (@warnings float os after).
  rewrite !warnings_all_readable
    by (intros y Hy; apply Hall; apply in_or_app; auto).
  cbn [flat_map]. now rewrite Hp.
Qed.



(** [main] calls the model at most once, on the values of [inputs]. *)
Lemma detect_and_report_calls (args : Namespace float) (inputs : Dict.t string)
    (w w' : world float) (r : result (Dict.t (Dict.t float) * Dict.t (Dict.t float))) :
  detect_and_report float_ge classifier os args inputs w = (r, w') ->
  calls w' = calls w \/ calls w' = calls w ++ [(Dict.values inputs, labels args)].
Proof.
  intros Hrun.
  destruct (load_model os) as [[]|e] eqn:Hload.
  - destruct (classifier (length (calls w)) (Dict.values inputs) (labels args))
      as [out|e] eqn:Hm.
    + destruct (detect_and_report_reply args inputs w Hload Hm)
        as [fs [w2 [Hdr [Hcalls _]]]].
      rewrite Hdr in Hrun. inversion Hrun; subst. now right.
    + rewrite (detect_and_report_model_failure args inputs w Hload Hm) in Hrun.
      inversion Hrun; subst. now right.
  - rewrite (detect_and_report_load_failure args inputs w Hload) in Hrun.
    inversion Hrun; subst. now left.
Qed.

End CliFacts.
End CliFacts.

(** * The properties of the specification *)

Section Claims.
Variable float : Type.
Variable float_ge : float -> float -> bool.
Variables f_zero f_one f_half : float.
Variable classifier : nat -> list string -> list string -> model_reply float.
Variable cfg : Api.config.
Variable os : Cli.os_env.


(** C1.  Every record returned by [classify_texts], for any threshold
    (in particular any threshold in [0,1]), has as [flagged_labels]
    exactly the items of its [scores] whose score is [>=] the threshold,
    in the same order and with the same values; looking a label up in
    [flagged_labels] succeeds exactly when it is in [scores] with such a
    score.  With [ENABLE_FAST_DETECT], [is_safe] is true exactly when
    [flagged_labels] is empty and false exactly when it is not; without
    it [is_safe] is absent.  The command line tool computes the same
    partition: one pass of its display loop prints [FLAGGED] with exactly
    those items and files them under the source in [flagged], or prints
    [SAFE] when there are none. *)
Theorem C1_flagged_is_scores_at_or_above_threshold :
  forall (texts labels : list string) (t : float) (w w' : world float)
         (results : list (Api.DetectResult float)) (r : Api.DetectResult float),
    Api.classify_texts float_ge classifier cfg texts labels t w = (Ok results, w') ->
    In r results ->
    (Api.flagged_labels r = filter (fun kv => float_ge (snd kv) t) (Api.scores r)
     /\ (forall l s, Dict.get (Api.flagged_labels r) l = Some s <->
                     Dict.get (Api.scores r) l = Some s /\ float_ge s t = true)
     /\ (Api.ENABLE_FAST_DETECT cfg = true ->
         (Api.is_safe r = Some true <-> Api.flagged_labels r = []) /\
         (Api.is_safe r = Some false <-> Api.flagged_labels r <> []))
     /\ (Api.ENABLE_FAST_DETECT cfg = false -> Api.is_safe r = None))
    /\ (forall fs source text res wc,
          let high := filter (fun kv => float_ge (snd kv) t) (label_scores res) in
          Cli.display float_ge t fs ((source, text), res) wc =
          (Ok (match high with
               | [] => (fst fs, Dict.set (snd fs) source (label_scores res))
               | _ => (Dict.set (fst fs) source high, snd fs)
               end),
           Cli.with_stdout wc
             (match high with
              | [] => [Safe source]
              | _ => Flagged source :: map (fun kv => LabelLine (fst kv) (snd kv)) high
              end))).
Proof.
  intros texts labels t w w' results r Hrun Hin. split.
  - apply ApiFacts.classify_texts_results in Hrun.
    destruct Hrun as [out [_ [-> _]]].
    apply in_map_iff in Hin. destruct Hin as [tr [<- _]].
    unfold Api.result_of; simpl.
    split; [apply at_or_above_filter|].
    split; [intros l s; apply at_or_above_get|].
    split.
    + intros Hon. rewrite Hon. split; split.
      * intros Hs. injection Hs as Hs. now apply ListFacts.length_zero_iff.
      * intros Hs. f_equal. now apply ListFacts.length_zero_iff.
      * intros Hs Hnil. injection Hs as Hs. apply ListFacts.length_zero_iff in Hnil. congruence.
      * intros Hne. f_equal.
        destruct (length _ =? 0) eqn:E; [|reflexivity].
        apply ListFacts.length_zero_iff in E. contradiction.
    + intros Hoff. now rewrite Hoff.
  - intros fs source text res wc high.
    rewrite (CliFacts.display_run float_ge t fs (source, text, res) wc).
    unfold Cli.block; simpl. fold high. now destruct high.
Qed.


(** C2.  With [labels] and [threshold] both left out, each front end
    classifies with the seven default labels and threshold 0.5:
    [POST /detect] answers as [classify_texts] does on the texts of the
    body with these two arguments (a body without texts is refused before
    any classification); [GET /detect] answers as [classify_texts] does on
    the single text or the list of texts; [POST /detect/file] hands them
    to [detect_file]; and [main] runs with [args.labels] the seven labels
    and [args.threshold] 0.5, so that any model call it records carries
    these labels. *)
Theorem C2_defaults_when_labels_and_threshold_omitted :
  Api.DEFAULT_LABELS = seven_labels /\ Cli.DEFAULT_LABELS = seven_labels
  /\ (forall texts w,
        Api.post_detect float_ge f_zero f_one f_half classifier cfg
          (Api.mkPostBody texts Api.Omitted Api.Omitted) w =
        match texts with
        | Api.Value ts =>
            Api.serve (Api.classify_texts float_ge classifier cfg ts seven_labels f_half) w
        | _ => (Ok (Api.mkJSONResponse 422 (Api.ValidationError float ["texts"])), w)
        end)
  /\ (forall texts text w,
        Api.get_detect float_ge f_zero f_one f_half classifier cfg
          (Api.mkGetQuery texts text [] None) w =
        match text with
        | Some s =>
            if Api.ENABLE_TEXT_PARAM cfg
            then Api.serve (Api.classify_texts float_ge classifier cfg [s] seven_labels f_half) w
            else (Ok (Api.mkJSONResponse 400
                        (Api.ErrorContent float "Single-text query param 'text' not supported")), w)
        | None =>
            match texts with
            | [] => (Ok (Api.mkJSONResponse 422
                           (Api.ErrorContent float
                              "Provide either 'texts' or 'text' query parameter")), w)
            | _ :: _ =>
                Api.serve (Api.classify_texts float_ge classifier cfg texts seven_labels f_half) w
            end
        end)
  /\ (forall file w,
        Api.post_detect_file float_ge f_zero f_one f_half classifier cfg
          (Api.mkFileForm (Some file) [] None) w =
        Api.serve (Api.detect_file float_ge classifier cfg file seven_labels f_half) w)
  /\ (forall text file dir output verbose w,
        let c := Cli.mkCommandLine text file dir None None output verbose in
        Cli.parse_args f_half c
          = Cli.mkNamespace text file dir seven_labels f_half output verbose
        /\ Cli.main float_ge f_half classifier os c w
           = Cli.run float_ge classifier os
               (Cli.mkNamespace text file dir seven_labels f_half output verbose) w
        /\ (forall r w', Cli.main float_ge f_half classifier os c w = (r, w') ->
              calls w' = calls w \/
              exists texts, calls w' = calls w ++ [(texts, seven_labels)])).
Proof.
  split; [reflexivity|]. split; [reflexivity|].
  split; [|split; [|split]].
  - intros texts w. rewrite ApiFacts.post_detect_run. simpl.
    now destruct texts.
  - intros texts text w. rewrite ApiFacts.get_detect_run. simpl.
    destruct text as [s|]; [reflexivity|]. now destruct texts.
  - intros file w. now apply ApiFacts.post_detect_file_accepted.
  - intros text file dir output verbose w c.
    split; [reflexivity|]. split; [reflexivity|].
    intros r w' Hmain. unfold Cli.main in Hmain.
    change (Cli.parse_args f_half c)
      with (Cli.mkNamespace text file dir seven_labels f_half output verbose) in Hmain.
    set (args := Cli.mkNamespace text file dir seven_labels f_half output verbose) in *.
    destruct (CliFacts.run_cases float_ge classifier os args w)
      as [[e [lines Hrun]]|[inputs [lines [_ [_ Hrun]]]]]; rewrite Hrun in Hmain.
    + inversion Hmain; subst. now left.
    + apply CliFacts.detect_and_report_calls in Hmain.
      destruct Hmain as [H|H]; [now left|right; eexists; exact H].
Qed.


Lemma is_text_plain_false (ct : option string) :
  ct <> Some "text/plain" -> Api.is_text_plain ct = false.
Proof.
  destruct ct as [s|]; simpl; [|reflexivity].
  intros H. destruct (String.eqb_spec s "text/plain"); [subst; now elim H|reflexivity].
Qed.

(** C3.  [GET /detect] without [text] and without [texts] answers with
    status 422, and with [text] given while [ENABLE_TEXT_PARAM] is off it
    answers with status 400 (422 when the [threshold] parameter is out of
    its declared bounds, which is checked before the handler runs).  In
    both cases the world is left as it was: no model call is made and
    nothing is logged. *)
Theorem C3_get_detect_without_input_or_with_unsupported_text :
  forall (q : Api.get_query float) (w : world float),
    (Api.q_text q = None -> Api.q_texts q = [] ->
     exists content,
       Api.get_detect float_ge f_zero f_one f_half classifier cfg q w
       = (Ok (Api.mkJSONResponse 422 content), w) /\
       (Api.threshold_accepted float_ge f_zero f_one (Api.q_threshold q) = true ->
        content = Api.ErrorContent float "Provide either 'texts' or 'text' query parameter"))
    /\ (forall s, Api.q_text q = Some s -> Api.ENABLE_TEXT_PARAM cfg = false ->
        exists resp,
          Api.get_detect float_ge f_zero f_one f_half classifier cfg q w = (Ok resp, w) /\
          (Api.threshold_accepted float_ge f_zero f_one (Api.q_threshold q) = true ->
           resp = Api.mkJSONResponse 400
                    (Api.ErrorContent float "Single-text query param 'text' not supported")) /\
          (Api.threshold_accepted float_ge f_zero f_one (Api.q_threshold q) = false ->
           resp = Api.mkJSONResponse 422 (Api.ValidationError float ["threshold"])) /\
          400 <= Api.status_code resp < 500).
Proof.
  intros q w. split.
  - intros Htext Htexts. rewrite ApiFacts.get_detect_run, Htext, Htexts.
    destruct (Api.threshold_accepted _ _ _ _); eexists; split; try reflexivity.
    discriminate.
  - intros s Htext Hoff. rewrite ApiFacts.get_detect_run, Htext, Hoff.
    destruct (Api.threshold_accepted _ _ _ _); eexists; (split; [reflexivity|]);
      repeat split; try discriminate; try reflexivity; simpl; lia.
Qed.

(** C4.  An upload to [POST /detect/file] whose content type is not
    [text/plain] is answered with status 400 and "Only text/plain
    supported." (422 when the [threshold] field is out of its declared
    bounds), a client error in every case, and the world is left as it
    was: the model is not called. *)
Theorem C4_detect_file_rejects_other_content_types :
  forall (f : Api.file_form float) (file : Api.UploadFile) (w : world float),
    Api.f_file f = Some file ->
    Api.content_type file <> Some "text/plain" ->
    exists resp,
      Api.post_detect_file float_ge f_zero f_one f_half classifier cfg f w = (Ok resp, w) /\
      (Api.threshold_accepted float_ge f_zero f_one (Api.f_threshold f) = true ->
       resp = Api.mkJSONResponse 400 (Api.ErrorContent float "Only text/plain supported.")) /\
      (Api.threshold_accepted float_ge f_zero f_one (Api.f_threshold f) = false ->
       resp = Api.mkJSONResponse 422 (Api.ValidationError float ["threshold"])) /\
      400 <= Api.status_code resp < 500.
Proof.
  intros f file w Hfile Hct.
  rewrite ApiFacts.post_detect_file_run, Hfile, (is_text_plain_false Hct).
  destruct (Api.threshold_accepted _ _ _ _); eexists; (split; [reflexivity|]);
    repeat split; try discriminate; try reflexivity; simpl; lia.
Qed.

(** C10.  On [GET /detect] a [text] parameter makes the [texts]
    parameter irrelevant: the answer is the same as without any [texts].
    With [ENABLE_TEXT_PARAM] on and an accepted threshold the answer is
    that of [classify_texts] on the one-element list holding [text], and
    whatever the options, the model is called at most once and then on
    that list only. *)
Theorem C10_text_takes_precedence_over_texts :
  forall (q : Api.get_query float) (s : string) (w : world float),
    Api.q_text q = Some s ->
    Api.get_detect float_ge f_zero f_one f_half classifier cfg q w
    = Api.get_detect float_ge f_zero f_one f_half classifier cfg
        (Api.mkGetQuery [] (Some s) (Api.q_labels q) (Api.q_threshold q)) w
    /\ (Api.ENABLE_TEXT_PARAM cfg = true ->
        Api.threshold_accepted float_ge f_zero f_one (Api.q_threshold q) = true ->
        Api.get_detect float_ge f_zero f_one f_half classifier cfg q w
        = Api.serve (Api.classify_texts float_ge classifier cfg [s]
                       (Api.labels_or_default (Api.q_labels q))
                       (Api.threshold_or_default f_half (Api.q_threshold q))) w)
    /\ (forall r w',
          Api.get_detect float_ge f_zero f_one f_half classifier cfg q w = (r, w') ->
          calls w' = calls w \/
          calls w' = calls w ++ [([s], Api.labels_or_default (Api.q_labels q))]).
Proof.
  intros q s w Htext. split; [|split].
  - rewrite !ApiFacts.get_detect_run. simpl. now rewrite Htext.
  - intros Hon Hthr. now rewrite ApiFacts.get_detect_run, Hthr, Htext, Hon.
  - intros r w'. rewrite ApiFacts.get_detect_run, Htext.
    destruct (Api.threshold_accepted _ _ _ _).
    + destruct (Api.ENABLE_TEXT_PARAM cfg).
      * rewrite ApiFacts.serve_classify.
        destruct (classifier _ _ _); intros H; inversion H; subst; now right.
      * intros H; inversion H; subst; now left.
    + intros H; inversion H; subst; now left.
Qed.


(** C9.  When the model call fails, [classify_texts] logs the error and
    raises [HTTPException(500)], which the handler turns into a response
    with status 500 and the message "Internal classification error": no
    result record is returned.  For each of the three endpoints, and
    whatever the request: if the endpoint called the model and that call
    failed, then this is its answer, and the call was the only one (it is
    not repeated, even where a second call would succeed).  In [main] the
    exception is not caught: the run ends with it, after that single call,
    with nothing printed and no output file written. *)
Theorem C9_model_failure_is_an_internal_error :
  forall (texts labels : list string) (e : string) (w : world float),
    classifier (length (calls w)) texts labels = ModelError e ->
    (forall t,
       Api.classify_texts float_ge classifier cfg texts labels t w
       = (Raise (HTTPException 500 "Internal classification error"),
          Api.after_failure texts labels e w)
       /\ Api.serve (Api.classify_texts float_ge classifier cfg texts labels t) w
          = (Ok (Api.mkJSONResponse 500 (Api.ErrorContent float "Internal classification error")),
             Api.after_failure texts labels e w))
    /\ calls (Api.after_failure texts labels e w) = calls w ++ [(texts, labels)]
    /\ (forall m,
          (exists b, m = Api.post_detect float_ge f_zero f_one f_half classifier cfg b) \/
          (exists q, m = Api.get_detect float_ge f_zero f_one f_half classifier cfg q) \/
          (exists f, m = Api.post_detect_file float_ge f_zero f_one f_half classifier cfg f) ->
          forall r w' rest,
            m w = (r, w') ->
            calls w' = calls w ++ (texts, labels) :: rest ->
            r = Ok (Api.mkJSONResponse 500
                      (Api.ErrorContent float "Internal classification error"))
            /\ rest = [] /\ w' = Api.after_failure texts labels e w)
    /\ (forall c r w' rest,
          Cli.main float_ge f_half classifier os c w = (r, w') ->
          calls w' = calls w ++ (texts, labels) :: rest ->
          r = Raise (PyException e) /\ rest = [] /\
          stdout w' = stdout w /\ written w' = written w).
Proof.
  intros texts labels e w Hfail. split; [|split; [|split]].
  - intros t. rewrite ApiFacts.serve_classify, ApiFacts.classify_texts_run, Hfail.
    now split.
  - reflexivity.
  - intros m Hm r w' rest Hrun Hnew.
    eapply ApiFacts.failure_through; [|exact Hrun|exact Hnew|exact Hfail].
    destruct Hm as [[b ->]|[[q ->]|[f ->]]].
    + apply ApiFacts.post_detect_hands_over.
    + apply ApiFacts.get_detect_hands_over.
    + apply ApiFacts.post_detect_file_hands_over.
  - intros c r w' rest Hmain Hnew. unfold Cli.main in Hmain.
    destruct (CliFacts.run_cases float_ge classifier os (Cli.parse_args f_half c) w)
      as [[e' [lines Hrun]]|[inputs [lines [Hne [Hprep Hrun]]]]];
      rewrite Hrun in Hmain.
    + inversion Hmain; subst. simpl in Hnew.
      now apply ListFacts.app_cons_not_self in Hnew.
    + destruct (Cli.load_model os) as [[]|e'] eqn:Hload.
      * destruct (classifier (length (calls (Cli.with_stderr w lines)))
                    (Dict.values inputs) (Cli.labels (Cli.parse_args f_half c)))
          as [out|e'] eqn:Hm.
        -- edestruct CliFacts.detect_and_report_reply
             as [fs [w2 [Hdr [Hcalls _]]]]; [exact Hload|exact Hm|].
           rewrite Hdr in Hmain. inversion Hmain; subst.
           rewrite Hnew in Hcalls. simpl in Hcalls.
           apply app_inv_head in Hcalls. inversion Hcalls; subst.
           simpl in Hm. congruence.
        -- erewrite CliFacts.detect_and_report_model_failure in Hmain;
             [|exact Hload|exact Hm].
           inversion Hmain; subst. simpl in Hnew.
           apply app_inv_head in Hnew. inversion Hnew; subst.
           simpl in Hm. rewrite Hm in Hfail. inversion Hfail; subst.
           now repeat split.
      * erewrite CliFacts.detect_and_report_load_failure in Hmain by exact Hload.
        inversion Hmain; subst. simpl in Hnew.
        now apply ListFacts.app_cons_not_self in Hnew.
Qed.


(** C6.  When neither [--text] nor [--file] nor [--dir] carries a value
    ([main] treats an empty value as none), [main] ends in the usage
    error of [p.error]: exit status 2, its message on the error stream,
    and nothing else changed in the world.  More generally, whenever input
    collection ends with an empty [inputs] (so also for a directory
    without readable [.txt] file), [main] ends in that usage error and
    the model has neither been loaded nor called. *)
Theorem C6_no_input_is_a_usage_error :
  forall (c : Cli.command_line float) (w : world float),
    (Cli.given (Cli.c_text c) = None -> Cli.given (Cli.c_file c) = None ->
     Cli.given (Cli.c_dir c) = None ->
     Cli.main float_ge f_half classifier os c w
     = (Raise (SystemExit 2), Cli.with_stderr w [Usage Cli.usage_text]))
    /\ (forall w1,
          Cli.prepare_inputs os (Cli.parse_args f_half c) w = (Ok [], w1) ->
          Cli.main float_ge f_half classifier os c w
          = (Raise (SystemExit 2), Cli.with_stderr w1 [Usage Cli.usage_text])
          /\ loads (Cli.with_stderr w1 [Usage Cli.usage_text]) = loads w
          /\ calls (Cli.with_stderr w1 [Usage Cli.usage_text]) = calls w
          /\ stdout (Cli.with_stderr w1 [Usage Cli.usage_text]) = stdout w
          /\ written (Cli.with_stderr w1 [Usage Cli.usage_text]) = written w).
Proof.
  intros c w. split.
  - intros Ht Hf Hd. unfold Cli.main.
    apply CliFacts.run_no_inputs. now apply CliFacts.prepare_inputs_none.
  - intros w1 Hprep. split.
    + unfold Cli.main. now apply CliFacts.run_no_inputs.
    + destruct (CliFacts.only_logs_prepare_inputs os (Cli.parse_args f_half c) w)
        as [r [lines Hlogs]].
      rewrite Hlogs in Hprep. inversion Hprep; subst. now repeat split.
Qed.

(** C7.  When the walk of a directory discovers N distinct [.txt] files
    of which exactly one cannot be read, [load_texts_from_dir] does not
    raise: it returns the dictionary of the other N-1 files, in the order
    of discovery and each with its content, and logs one warning, naming
    the unreadable file.  With [--dir] as the only input flag this
    dictionary is the [inputs] of [main]. *)
Theorem C7_unreadable_file_is_skipped_with_a_warning :
  forall (directory : string) (before after : list string) (p e : string)
         (w : world float),
    Cli.discovered os directory = before ++ p :: after ->
    NoDup (before ++ p :: after) ->
    Cli.read_text os p = Cli.Failed e ->
    (forall x, In x (before ++ after) -> Cli.can_read os x = true) ->
    exists texts,
      Cli.load_texts_from_dir os directory w
      = (Ok texts, Cli.with_stderr w [LogWarning (CouldNotRead p (PyException e))])
      /\ Dict.keys texts = before ++ after
      /\ length texts = length (Cli.discovered os directory) - 1
      /\ (forall x content, In x (before ++ after) ->
            Cli.read_text os x = Cli.Done content -> Dict.get texts x = Some content)
      /\ (forall args : Cli.Namespace float,
            Cli.given (Cli.text args) = None -> Cli.given (Cli.file args) = None ->
            Cli.given (Cli.dir args) = Some directory -> Cli.isdir os directory = true ->
            Cli.prepare_inputs os args w
            = (Ok texts, Cli.with_stderr w [LogWarning (CouldNotRead p (PyException e))])).
Proof.
  intros directory before after p e w Hdisc Hnd Hp Hall.
  assert (Hnd' : NoDup (before ++ after)) by (eapply NoDup_remove_1; exact Hnd).
  assert (Hkeys : Dict.keys (Cli.readable os (before ++ after)) = before ++ after).
  { rewrite CliFacts.keys_readable. now apply ListFacts.filter_all. }
  assert (Hnk : NoDup (Dict.keys (Cli.readable os (before ++ after))))
    by now rewrite Hkeys.
  assert (Hload : Cli.load_texts_from_dir os directory w
                  = (Ok (Cli.readable os (before ++ after)),
                     Cli.with_stderr w [LogWarning (CouldNotRead p (PyException e))])).
  { rewrite CliFacts.load_texts_from_dir_run, Hdisc.
    erewrite CliFacts.readable_skip by exact Hp.
    erewrite CliFacts.warnings_one; [|exact Hp|exact Hall].
    now rewrite CliFacts.of_pairs_NoDup. }
  exists (Cli.readable os (before ++ after)).
  split; [exact Hload|]. split; [exact Hkeys|]. split; [|split].
  - rewrite Hdisc. unfold Dict.keys in Hkeys.
    rewrite <- (length_map fst), Hkeys, !length_app. simpl. lia.
  - intros x content Hin Hread. apply CliFacts.get_In; [assumption|].
    now apply CliFacts.In_readable.
  - intros args Ht Hf Hd Hisdir.
    erewrite CliFacts.prepare_inputs_dir_only; [|exact Ht|exact Hf|exact Hd|exact Hisdir].
    rewrite Hdisc.
    erewrite CliFacts.readable_skip by exact Hp.
    erewrite CliFacts.warnings_one; [|exact Hp|exact Hall].
    rewrite CliFacts.of_pairs_NoDup by assumption.
    fold (Dict.of_pairs (Cli.readable os (before ++ after))).
    now rewrite CliFacts.of_pairs_NoDup.
Qed.


(** C8.  When the model answers a batch with one record per text,
    [classify_texts] returns exactly one record per input text, in the
    order of the input list, the i-th record carrying the i-th text and
    the scores of the i-th answer.  [main] then prints exactly one
    [FLAGGED] or [SAFE] block per entry of [inputs], in the order of
    [inputs], and the results of the JSON document name the same sources
    in the same order.  With [--dir] as the only input flag, the entries
    of [inputs] are the readable files in the order in which the walk
    discovered them. *)
Theorem C8_one_record_per_text_in_input_order :
  forall (texts labels : list string) (out : raw_output float) (w : world float),
    classifier (length (calls w)) texts labels = Reply out ->
    length (as_list out) = length texts ->
    (forall t, exists results,
        Api.classify_texts float_ge classifier cfg texts labels t w
        = (Ok results, record_call (texts, labels) w)
        /\ length results = length texts
        /\ map (@Api.text float) results = texts
        /\ map (@Api.scores float) results = map (@label_scores float) (as_list out))
    /\ (forall (args : Cli.Namespace float) (inputs : Dict.t string) (w0 : world float),
          Cli.prepare_inputs os args w0 = (Ok inputs, w) -> inputs <> [] ->
          Dict.values inputs = texts -> Cli.labels args = labels ->
          Cli.load_model os = Cli.Done tt ->
          exists fs w' lines,
            Cli.run float_ge classifier os args w0 = (Ok fs, w')
            /\ stdout w' = stdout w0 ++ lines
            /\ lines = flat_map (Cli.block float_ge (Cli.threshold args))
                                (combine inputs (as_list out))
            /\ Cli.sources_printed lines = Dict.keys inputs
            /\ (forall path, Cli.given (Cli.output args) = Some path ->
                  Cli.write_text os path = Cli.Done tt ->
                  exists doc, written w' = written w0 ++ [(path, doc)] /\
                              map fst (o_results doc) = Dict.keys inputs))
    /\ (forall (args : Cli.Namespace float) (d : string) (w0 : world float),
          Cli.given (Cli.text args) = None -> Cli.given (Cli.file args) = None ->
          Cli.given (Cli.dir args) = Some d -> Cli.isdir os d = true ->
          NoDup (Cli.discovered os d) ->
          exists inputs w1,
            Cli.prepare_inputs os args w0 = (Ok inputs, w1) /\
            Dict.keys inputs = filter (Cli.can_read os) (Cli.discovered os d)).
Proof.
  intros texts labels out w Hreply Hlen. split; [|split].
  - intros t. eexists. rewrite ApiFacts.classify_texts_run, Hreply.
    split; [reflexivity|].
    rewrite length_map, length_combine, Hlen, Nat.min_id.
    split; [reflexivity|].
    rewrite !map_map. split.
    + change (fun x => Api.text (Api.result_of float_ge cfg t x))
        with (@fst string (raw_result float)).
      rewrite ListFacts.combine_fst_prefix. now apply ListFacts.firstn_length_all.
    + transitivity (map (@label_scores float) (map snd (combine texts (as_list out)))).
      * now rewrite map_map.
      * rewrite ListFacts.combine_snd_prefix. now rewrite firstn_all2 by lia.
  - intros args inputs w0 Hprep Hne Hvalues Hlabels Hload.
    assert (Hilen : length inputs = length texts).
    { rewrite <- Hvalues. unfold Dict.values. now rewrite length_map. }
    destruct (CliFacts.only_logs_prepare_inputs os args w0) as [r0 [logged Hlogs]].
    rewrite Hlogs in Hprep. inversion Hprep; subst r0 w. clear Hprep.
    subst texts labels.
    edestruct CliFacts.detect_and_report_reply
      as [fs [w' [Hrun [_ [_ [Hout Hwritten]]]]]]; [exact Hload|exact Hreply|].
    exists fs, w', (flat_map (Cli.block float_ge (Cli.threshold args))
                             (combine inputs (as_list out))).
    split.
    { erewrite CliFacts.run_with_inputs; [exact Hrun|exact Hlogs|exact Hne]. }
    split; [exact Hout|]. split; [reflexivity|]. split.
    + rewrite CliFacts.sources_printed_blocks, <- (map_map fst fst).
      rewrite ListFacts.combine_fst_prefix. unfold Dict.keys.
      rewrite ListFacts.firstn_length_all; [reflexivity|congruence].
    + intros path Hpath Hwrite. eexists. split.
      * exact (Hwritten path Hpath Hwrite).
      * simpl. rewrite map_map. simpl.
        rewrite ListFacts.combine_fst_prefix.
        apply ListFacts.firstn_length_all. unfold Dict.keys. rewrite length_map. congruence.
  - intros args d w0 Ht Hf Hd Hisdir Hnd.
    eexists _, _. split.
    + eapply CliFacts.prepare_inputs_dir_only; eassumption.
    + assert (Hk : NoDup (Dict.keys (Cli.readable os (Cli.discovered os d))))
        by now apply CliFacts.NoDup_keys_readable.
      rewrite CliFacts.of_pairs_NoDup by assumption.
      fold (Dict.of_pairs (Cli.readable os (Cli.discovered os d))).
      rewrite CliFacts.of_pairs_NoDup by assumption.
      apply CliFacts.keys_readable.
Qed.

(** C5, as amended.  A [text/plain] upload to [POST /detect/file] that
    decodes as UTF-8 is classified as the texts [file_texts] of its
    content: the lines of [splitlines] when the content holds a newline
    character, and otherwise the content as a single text; lines of
    ordinary text joined by newlines come back as themselves.  The
    command line tool does not split: with [--file] as the only input
    flag, [inputs] has the single entry of the path with the whole
    content, and the model is called at most once, on the one-element
    list holding that content. *)
Theorem C5_upload_is_split_local_file_is_one_text :
  forall (f : Api.file_form float) (file : Api.UploadFile) (w : world float),
    Api.f_file f = Some file ->
    Api.content_type file = Some "text/plain" ->
    Py.utf8_ok (Api.data file) = true ->
    Api.threshold_accepted float_ge f_zero f_one (Api.f_threshold f) = true ->
    (Api.post_detect_file float_ge f_zero f_one f_half classifier cfg f w
     = Api.serve (Api.classify_texts float_ge classifier cfg
                    (Api.file_texts (Api.data file))
                    (Api.labels_or_default (Api.f_labels f))
                    (Api.threshold_or_default f_half (Api.f_threshold f))) w
     /\ (Py.contains Py.LF (Api.data file) = true ->
         Api.file_texts (Api.data file) = Py.splitlines (Api.data file))
     /\ (Py.contains Py.LF (Api.data file) = false ->
         Api.file_texts (Api.data file) = [Api.data file])
     /\ (forall lines,
           Forall (fun l => Py.plain l = true) lines -> lines <> [] ->
           (2 <= length lines -> last lines "x" <> "") ->
           Api.data file = Py.join_lines lines ->
           Api.file_texts (Api.data file) = lines))
    /\ (forall (args : Cli.Namespace float) (path content : string) (wc : world float),
          Cli.given (Cli.text args) = None -> Cli.given (Cli.file args) = Some path ->
          Cli.given (Cli.dir args) = None ->
          Cli.isfile os path = true -> Cli.read_text os path = Cli.Done content ->
          Cli.prepare_inputs os args wc = (Ok [(path, content)], wc)
          /\ (forall r w',
                Cli.run float_ge classifier os args wc = (r, w') ->
                calls w' = calls wc \/
                calls w' = calls wc ++ [([content], Cli.labels args)])).
Proof.
  intros f file w Hfile Hct Hutf Hthr. split.
  - split; [|split; [|split]].
    + rewrite ApiFacts.post_detect_file_run, Hfile, Hthr, Hct, Hutf. reflexivity.
    + intros Hnl. unfold Api.file_texts. now rewrite Hnl.
    + intros Hnl. unfold Api.file_texts. now rewrite Hnl.
    + intros lines Hplain Hne Hlast ->. unfold Api.file_texts.
      destruct lines as [|l [|l2 lines]]; [contradiction| |].
      * inversion Hplain; subst. simpl.
        now rewrite PyFacts.plain_no_LF.
      * rewrite PyFacts.contains_LF_join.
        apply PyFacts.splitlines_join; [assumption|].
        apply Hlast. simpl. lia.
  - intros args path content wc Ht Hf Hd Hisfile Hread.
    assert (Hprep : Cli.prepare_inputs os args wc = (Ok [(path, content)], wc))
      by now apply CliFacts.prepare_inputs_file_only.
    split; [exact Hprep|].
    intros r w' Hrun.
    erewrite CliFacts.run_with_inputs in Hrun; [|exact Hprep|discriminate].
    now apply CliFacts.detect_and_report_calls in Hrun.
Qed.

End Claims.

(** * The claims on the sample setting *)

(** C1 on the sample: the record for "you fool!" is flagged for "insult"
    only, and is not safe. *)
Lemma C1_witness :
  Api.flagged_labels Sample.first
  = filter (fun kv => Sample.float_ge (snd kv) Sample.half) (Api.scores Sample.first)
  /\ Api.is_safe Sample.first = Some false.
Proof.
  destruct (@C1_flagged_is_scores_at_or_above_threshold Q Sample.float_ge
              Sample.classifier Sample.on Sample.texts seven_labels Sample.half
              Sample.start
              (record_call (Sample.texts, seven_labels) Sample.start)
              (map (Api.result_of Sample.float_ge Sample.on Sample.half)
                   (combine Sample.texts
                      (map (Sample.answer seven_labels) Sample.texts)))
              Sample.first eq_refl (or_introl eq_refl))
    as [[Hflagged [_ [Hsafe _]]] _].
  split; [exact Hflagged|].
  destruct (Hsafe eq_refl) as [_ Hfalse]. apply Hfalse. discriminate.
Defined.

(** C2 on the sample: [--text] alone reaches the model with the seven
    default labels. *)
Lemma C2_witness :
  calls (snd (Cli.main Sample.float_ge Sample.half Sample.classifier Sample.os
                Sample.only_text Sample.start))
  = [(["you fool!"], seven_labels)].
Proof.
  destruct (@C2_defaults_when_labels_and_threshold_omitted Q Sample.float_ge
              Sample.zero Sample.one Sample.half Sample.classifier Sample.on Sample.os)
    as [_ [_ [_ [_ [_ Hcli]]]]].
  destruct (Hcli (Some "you fool!") None None None false Sample.start) as [_ [_ Hcalls]].
  destruct (Hcalls _ _ (surjective_pairing _)) as [Hnone|[texts Hone]].
  - vm_compute in Hnone. discriminate Hnone.
  - vm_compute. reflexivity.
Defined.

(** C3 on the sample: an empty query, and a [text] query with the
    single-text parameter switched off. *)
Lemma C3_witness :
  Api.get_detect Sample.float_ge Sample.zero Sample.one Sample.half Sample.classifier
    Sample.on (Api.mkGetQuery [] None [] None) Sample.start
  = (Ok (Api.mkJSONResponse 422
           (Api.ErrorContent Q "Provide either 'texts' or 'text' query parameter")),
     Sample.start)
  /\ Api.get_detect Sample.float_ge Sample.zero Sample.one Sample.half Sample.classifier
       Sample.no_text_param (Api.mkGetQuery ["x"] (Some "hi") [] None) Sample.start
     = (Ok (Api.mkJSONResponse 400
              (Api.ErrorContent Q "Single-text query param 'text' not supported")),
        Sample.start).
Proof.
  split.
  - destruct (@C3_get_detect_without_input_or_with_unsupported_text Q Sample.float_ge
                Sample.zero Sample.one Sample.half Sample.classifier Sample.on
                (Api.mkGetQuery [] None [] None) Sample.start) as [Hnone _].
    destruct (Hnone eq_refl eq_refl) as [content [Hrun Hcontent]].
    rewrite (Hcontent eq_refl) in Hrun. exact Hrun.
  - destruct (@C3_get_detect_without_input_or_with_unsupported_text Q Sample.float_ge
                Sample.zero Sample.one Sample.half Sample.classifier Sample.no_text_param
                (Api.mkGetQuery ["x"] (Some "hi") [] None) Sample.start) as [_ Htext].
    destruct (Htext "hi" eq_refl eq_refl) as [resp [Hrun [Hresp _]]].
    rewrite (Hresp eq_refl) in Hrun. exact Hrun.
Defined.

(** C4 on the sample: the upload of a PNG picture. *)
Lemma C4_witness :
  Api.post_detect_file Sample.float_ge Sample.zero Sample.one Sample.half
    Sample.classifier Sample.on (Api.mkFileForm (Some Sample.picture) [] None) Sample.start
  = (Ok (Api.mkJSONResponse 400 (Api.ErrorContent Q "Only text/plain supported.")),
     Sample.start).
Proof.
  destruct (@C4_detect_file_rejects_other_content_types Q Sample.float_ge
              Sample.zero Sample.one Sample.half Sample.classifier Sample.on
              (Api.mkFileForm (Some Sample.picture) [] None) Sample.picture Sample.start
              eq_refl ltac:(discriminate))
    as [resp [Hrun [Hresp _]]].
  rewrite (Hresp eq_refl) in Hrun. exact Hrun.
Defined.

(** C5 as stated fails for the command line tool: the file [msg.txt],
    which holds the two lines "you fool!" and "good morning", is given
    with [--file]; the model is called on the whole content as one text,
    not on the two lines. *)
Lemma C5_counterexample_local_file_is_not_split :
  Py.contains Py.LF Sample.two_lines = true
  /\ Api.file_texts Sample.two_lines = ["you fool!"; "good morning"]
  /\ calls (snd (Cli.main Sample.float_ge Sample.half Sample.classifier Sample.os
                   Sample.only_file Sample.start))
     = [([Sample.two_lines], seven_labels)]
  /\ ~ (forall (f content : string) r w',
          Cli.isfile Sample.os f = true ->
          Cli.read_text Sample.os f = Cli.Done content ->
          Cli.main Sample.float_ge Sample.half Sample.classifier Sample.os
            (Cli.mkCommandLine None (Some f) None None None None false) Sample.start
          = (r, w') ->
          exists labels, calls w' = [(Api.file_texts content, labels)]).
Proof.
  split; [reflexivity|]. split; [reflexivity|]. split; [reflexivity|].
  intros Hclaim.
  destruct (Hclaim "msg.txt" Sample.two_lines _ _ eq_refl eq_refl (surjective_pairing _))
    as [labels Hcalls].
  vm_compute in Hcalls. discriminate Hcalls.
Qed.

(** C5 on the sample: the two-line letter, uploaded and as a local file. *)
Lemma C5_witness :
  Api.file_texts (Api.data Sample.letter) = ["you fool!"; "good morning"]
  /\ Cli.prepare_inputs Sample.os (Cli.parse_args Sample.half Sample.only_file) Sample.start
     = (Ok [("msg.txt", Sample.two_lines)], Sample.start).
Proof.
  destruct (@C5_upload_is_split_local_file_is_one_text Q Sample.float_ge
              Sample.zero Sample.one Sample.half Sample.classifier Sample.on Sample.os
              (Api.mkFileForm (Some Sample.letter) [] None) Sample.letter Sample.start
              eq_refl eq_refl eq_refl eq_refl)
    as [[_ [_ [_ Hlines]]] Hcli].
  split.
  - apply Hlines.
    + repeat constructor.
    + discriminate.
    + intros _. discriminate.
    + reflexivity.
  - exact (proj1 (Hcli (Cli.parse_args Sample.half Sample.only_file) "msg.txt"
                       Sample.two_lines Sample.start eq_refl eq_refl eq_refl eq_refl eq_refl)).
Defined.

(** C6 on the sample: no flag at all, and a directory without [.txt]
    files. *)
Lemma C6_witness :
  Cli.main Sample.float_ge Sample.half Sample.classifier Sample.os Sample.no_flags Sample.start
  = (Raise (SystemExit 2), Cli.with_stderr Sample.start [Usage Cli.usage_text])
  /\ Cli.main Sample.float_ge Sample.half Sample.classifier Sample.os
       (Sample.only_dir "e") Sample.start
     = (Raise (SystemExit 2), Cli.with_stderr Sample.start [Usage Cli.usage_text]).
Proof.
  split.
  - exact (proj1 (@C6_no_input_is_a_usage_error Q Sample.float_ge Sample.half
                    Sample.classifier Sample.os Sample.no_flags Sample.start)
                 eq_refl eq_refl eq_refl).
  - exact (proj1 (proj2 (@C6_no_input_is_a_usage_error Q Sample.float_ge Sample.half
                           Sample.classifier Sample.os (Sample.only_dir "e") Sample.start)
                        Sample.start eq_refl)).
Defined.

(** C7 on the sample: of the three [.txt] files under [d], [d/b.TXT]
    cannot be read. *)
Lemma C7_witness :
  exists texts,
    Cli.load_texts_from_dir Sample.os "d" Sample.start
    = (Ok texts,
       Cli.with_stderr Sample.start
         [LogWarning (CouldNotRead "d/b.TXT" (PyException "PermissionError"))])
    /\ Dict.keys texts = ["d/a.txt"; "d/sub/c.txt"].
Proof.
  destruct (@C7_unreadable_file_is_skipped_with_a_warning Q Sample.os "d"
              ["d/a.txt"] ["d/sub/c.txt"] "d/b.TXT" "PermissionError" Sample.start)
    as [texts [Hload [Hkeys _]]].
  - reflexivity.
  - repeat constructor; simpl; intuition discriminate.
  - reflexivity.
  - intros x [<-|[<-|[]]]; reflexivity.
  - exists texts. split; [exact Hload|exact Hkeys].
Defined.

(** C8 on the sample: two texts, two records, same order. *)
Lemma C8_witness :
  exists results,
    Api.classify_texts Sample.float_ge Sample.classifier Sample.on
      Sample.texts seven_labels Sample.half Sample.start
    = (Ok results, record_call (Sample.texts, seven_labels) Sample.start)
    /\ length results = 2
    /\ map (@Api.text Q) results = ["you fool!"; "good morning"].
Proof.
  destruct (@C8_one_record_per_text_in_input_order Q Sample.float_ge Sample.classifier
              Sample.on Sample.os Sample.texts seven_labels
              (DictList (map (Sample.answer seven_labels) Sample.texts)) Sample.start
              eq_refl eq_refl)
    as [Hapi _].
  destruct (Hapi Sample.half) as [results [Hrun [Hlen [Htexts _]]]].
  exists results. split; [exact Hrun|]. split; [exact Hlen|exact Htexts].
Defined.

(** C9 on the sample: the model fails on its first call and would answer
    the second. *)
Lemma C9_witness :
  Api.post_detect Sample.float_ge Sample.zero Sample.one Sample.half Sample.flaky Sample.on
    (Api.mkPostBody (Api.Value Sample.texts) Api.Omitted Api.Omitted) Sample.start
  = (Ok (Api.mkJSONResponse 500 (Api.ErrorContent Q "Internal classification error")),
     Api.after_failure Sample.texts seven_labels "CUDA out of memory" Sample.start).
Proof.
  destruct (@C9_model_failure_is_an_internal_error Q Sample.float_ge
              Sample.zero Sample.one Sample.half Sample.flaky Sample.on Sample.os
              Sample.texts seven_labels "CUDA out of memory" Sample.start eq_refl)
    as [_ [_ [Hendpoints _]]].
  destruct (Hendpoints _
              (or_introl (ex_intro _ (Api.mkPostBody (Api.Value Sample.texts)
                                        Api.Omitted Api.Omitted) eq_refl))
              _ _ [] (surjective_pairing _) eq_refl)
    as [Hresp [_ Hworld]].
  rewrite (surjective_pairing (Api.post_detect _ _ _ _ _ _ _ _)).
  now rewrite Hresp, Hworld.
Defined.

(** C10 on the sample: [text] next to two values of [texts]. *)
Lemma C10_witness :
  Api.get_detect Sample.float_ge Sample.zero Sample.one Sample.half Sample.classifier
    Sample.on (Api.mkGetQuery ["ignored"; "too"] (Some "hi") [] None) Sample.start
  = Api.serve (Api.classify_texts Sample.float_ge Sample.classifier Sample.on
                 ["hi"] seven_labels Sample.half) Sample.start.
Proof.
  exact (proj1 (proj2 (@C10_text_takes_precedence_over_texts Q Sample.float_ge
                         Sample.zero Sample.one Sample.half Sample.classifier Sample.on
                         (Api.mkGetQuery ["ignored"; "too"] (Some "hi") [] None) "hi"
                         Sample.start eq_refl))
               eq_refl eq_refl).
Defined.

(** * Further properties of the two programs *)

(** ** More on strings *)

Module PyMore.
Import Py.

Lemma contains_snoc (c d : ascii) (s : string) :
  contains c (snoc s d) = contains c s || Ascii.eqb d c.
Proof.
  unfold snoc. rewrite PyFacts.contains_append. simpl. now rewrite orb_false_r.
Qed.

Lemma byte_is_eqb (n : nat) (c : ascii) :
  n < 256 -> byte_is n c = Ascii.eqb c (ascii_of_nat n).
Proof.
  intros Hn. unfold byte_is.
  destruct (Ascii.eqb_spec c (ascii_of_nat n)) as [->|Hne].
  - rewrite nat_ascii_embedding by assumption. apply Nat.eqb_refl.
  - apply Nat.eqb_neq. intros H. apply Hne.
    rewrite <- H. now rewrite ascii_nat_embedding.
Qed.

Lemma not_LF (c : ascii) : line_break1 c = false -> Ascii.eqb c LF = false.
Proof.
  unfold line_break1. intros H.
  rewrite <- (byte_is_eqb (n:=10)) by lia.
  destruct (byte_is 10 c); [discriminate H|reflexivity].
Qed.

Ltac split_tail IH :=
  apply IH; simpl in *; solve [lia | reflexivity | assumption].

(** Every line of [splitlines] is free of newline characters. *)
Lemma splitlines_from_lines (n : nat) :
  forall s cur,
    String.length s <= n ->
    contains LF cur = false ->
    Forall (fun l => contains LF l = false) (splitlines_from cur s).
Proof.
  induction n as [|n IH]; intros s cur Hlen Hcur.
  - destruct s; [|simpl in Hlen; lia].
    simpl. destruct (truthy cur); repeat constructor; assumption.
  - destruct s as [|c r].
    { simpl. destruct (truthy cur); repeat constructor; assumption. }
    cbn [splitlines_from].
    destruct (byte_is 13 c).
    { destruct r as [|c1 r1]; [repeat constructor; assumption|].
      destruct (byte_is 10 c1); (constructor; [assumption|split_tail IH]). }
    destruct (line_break1 c) eqn:Hbr; [constructor; [assumption|split_tail IH]|].
    assert (Hsn : contains LF (snoc cur c) = false).
    { rewrite contains_snoc, Hcur. simpl. now apply not_LF. }
    destruct (byte_is 194 c).
    { destruct r as [|c1 r1]; [repeat constructor; assumption|].
      destruct (byte_is 133 c1); [constructor; [assumption|split_tail IH]|split_tail IH]. }
    destruct (byte_is 226 c).
    { destruct r as [|c1 [|c2 r2]]; try split_tail IH.
      destruct (byte_is 128 c1 && (byte_is 168 c2 || byte_is 169 c2));
        [constructor; [assumption|split_tail IH]|split_tail IH]. }
    split_tail IH.
Qed.

(** A line being read, or any character left to read, gives at least one
    line. *)
Lemma splitlines_from_not_nil (n : nat) :
  forall s cur,
    String.length s <= n ->
    truthy cur = true \/ s <> "" ->
    splitlines_from cur s <> [].
Proof.
  assert (Hsn : forall cur c, truthy (snoc cur c) = true)
    by (intros [|d cur] c; reflexivity).
  induction n as [|n IH]; intros s cur Hlen Hsome.
  - destruct s; [|simpl in Hlen; lia].
    simpl. destruct Hsome as [->|H]; [discriminate|now elim H].
  - destruct s as [|c r].
    { simpl. destruct Hsome as [->|H]; [discriminate|now elim H]. }
    cbn [splitlines_from].
    assert (Hgo : splitlines_from (snoc cur c) r <> []).
    { apply IH; [simpl in Hlen; lia|left; apply Hsn]. }
    destruct (byte_is 13 c).
    { destruct r as [|c1 r1]; [discriminate|]. destruct (byte_is 10 c1); discriminate. }
    destruct (line_break1 c); [discriminate|].
    destruct (byte_is 194 c).
    { destruct r as [|c1 r1]; [discriminate|].
      destruct (byte_is 133 c1); [discriminate|exact Hgo]. }
    destruct (byte_is 226 c).
    { destruct r as [|c1 [|c2 r2]]; try exact Hgo.
      destruct (byte_is 128 c1 && (byte_is 168 c2 || byte_is 169 c2));
        [discriminate|exact Hgo]. }
    exact Hgo.
Qed.

(** [",".join(s.split(","))] is [s]. *)
Lemma join_split_from (sep : ascii) (s : string) :
  forall cur,
    String.concat (String sep "") (split_from sep cur s) = (cur ++ s)%string.
Proof.
  induction s as [|c r IH]; intros cur.
  - simpl. now rewrite PyFacts.append_empty_r.
  - cbn [split_from]. destruct (Ascii.eqb_spec c sep) as [->|Hne].
    + specialize (IH ""). simpl in IH.
      destruct (split_from sep "" r) as [|p ps] eqn:E.
      * destruct r; simpl in E; [discriminate|].
        destruct (Ascii.eqb a sep); discriminate.
      * change (String.concat (String sep "") (cur :: p :: ps))
          with (cur ++ String sep "" ++ String.concat (String sep "") (p :: ps))%string.
        now rewrite IH.
    + rewrite IH. apply PyFacts.append_snoc.
Qed.

Lemma split_from_not_nil (sep : ascii) (s : string) :
  forall cur, split_from sep cur s <> [].
Proof.
  induction s as [|c r IH]; intros cur; simpl; [discriminate|].
  destruct (Ascii.eqb c sep); [discriminate|apply IH].
Qed.

(** Pieces without the separator, joined and split, come back. *)
Lemma split_from_piece (sep : ascii) (l : string) :
  contains sep l = false ->
  forall cur rest,
    split_from sep cur (l ++ String sep rest) = (cur ++ l)%string :: split_from sep "" rest.
Proof.
  induction l as [|c l IH]; intros Hl cur rest.
  - simpl. rewrite Ascii.eqb_refl. now rewrite PyFacts.append_empty_r.
  - simpl in Hl. apply orb_false_iff in Hl. destruct Hl as [Hc Hl].
    simpl. rewrite Hc. rewrite (IH Hl). now rewrite PyFacts.append_snoc.
Qed.

Lemma split_from_last (sep : ascii) (l : string) :
  contains sep l = false ->
  forall cur, split_from sep cur l = [(cur ++ l)%string].
Proof.
  induction l as [|c l IH]; intros Hl cur.
  - simpl. now rewrite PyFacts.append_empty_r.
  - simpl in Hl. apply orb_false_iff in Hl. destruct Hl as [Hc Hl].
    simpl. rewrite Hc. rewrite (IH Hl). now rewrite PyFacts.append_snoc.
Qed.

Lemma split_join (sep : ascii) (pieces : list string) :
  pieces <> [] ->
  Forall (fun l => contains sep l = false) pieces ->
  split sep (String.concat (String sep "") pieces) = pieces.
Proof.
  unfold split.
  induction pieces as [|l pieces IH]; intros Hne Hall; [contradiction|].
  inversion Hall as [|? ? Hl Hrest]; subst.
  destruct pieces as [|l2 pieces].
  - simpl. now rewrite split_from_last.
  - change (String.concat (String sep "") (l :: l2 :: pieces))
      with (l ++ String sep (String.concat (String sep "") (l2 :: pieces)))%string.
    rewrite split_from_piece by exact Hl. simpl append at 1.
    f_equal. apply IH; [discriminate|assumption].
Qed.

(** [lower] goes through [++]; a string ends with its own suffix. *)
Lemma lower_append (a b : string) : lower (a ++ b) = (lower a ++ lower b)%string.
Proof. induction a as [|c a IH]; simpl; [reflexivity|]. now rewrite IH. Qed.

Lemma append_assoc (a b c : string) : ((a ++ b) ++ c = a ++ (b ++ c))%string.
Proof. induction a as [|x a IH]; simpl; [reflexivity|]. now rewrite IH. Qed.

Lemma rev_from_append (s : string) :
  forall acc, rev_from acc s = (rev_from "" s ++ acc)%string.
Proof.
  induction s as [|c s IH]; intros acc; simpl; [reflexivity|].
  rewrite IH, (IH (String c "")). now rewrite append_assoc.
Qed.

Lemma rev_append (a b : string) : rev (a ++ b) = (rev b ++ rev a)%string.
Proof.
  unfold rev. revert b. induction a as [|c a IH]; intros b; simpl.
  - now rewrite PyFacts.append_empty_r.
  - rewrite rev_from_append, IH, (rev_from_append a (String c "")).
    now rewrite append_assoc.
Qed.

Lemma prefix_append (p x : string) : String.prefix p (p ++ x) = true.
Proof.
  induction p as [|c p IH]; simpl; [now destruct x|].
  destruct (ascii_dec c c) as [_|H]; [exact IH|now elim H].
Qed.

Lemma endswith_append (a b : string) : endswith (a ++ b) b = true.
Proof. unfold endswith. rewrite rev_append. apply prefix_append. Qed.

Lemma lower_char_idempotent (c : ascii) : lower_char (lower_char c) = lower_char c.
Proof.
  unfold lower_char, byte_in.
  destruct ((65 <=? nat_of_ascii c) && (nat_of_ascii c <=? 90)) eqn:E; [|now rewrite E].
  apply andb_true_iff in E. destruct E as [E1 E2].
  apply Nat.leb_le in E1, E2.
  pose proof (nat_ascii_bounded c) as Hb.
  rewrite nat_ascii_embedding by lia.
  replace ((65 <=? nat_of_ascii c + 32) && (nat_of_ascii c + 32 <=? 90)) with false;
    [reflexivity|].
  symmetry. apply andb_false_iff. right. apply Nat.leb_gt. lia.
Qed.

Lemma lower_idempotent (s : string) : lower (lower s) = lower s.
Proof.
  induction s as [|c s IH]; simpl; [reflexivity|].
  now rewrite lower_char_idempotent, IH.
Qed.

End PyMore.

(** ** More on dictionaries: assignment and lookup *)

Module DictMore.
Import Dict.

Section DictMore.
Variable V : Type.
Implicit Types (d : Dict.t V) (k : string) (v : V) (pairs : list (string * V)).

Lemma get_set_same d k v : get (set d k v) k = Some v.
Proof.
  induction d as [|[k' v'] d IH]; simpl.
  - now rewrite String.eqb_refl.
  - destruct (String.eqb_spec k' k) as [->|Hne]; simpl.
    + now rewrite String.eqb_refl.
    + destruct (String.eqb_spec k' k); [contradiction|exact IH].
Qed.

Lemma get_set_other d k k' v : k <> k' -> get (set d k v) k' = get d k'.
Proof.
  intros Hne. induction d as [|[k0 v0] d IH]; simpl.
  - destruct (String.eqb_spec k k'); [contradiction|reflexivity].
  - destruct (String.eqb_spec k0 k) as [->|Hne0]; simpl.
    + destruct (String.eqb_spec k k'); [contradiction|reflexivity].
    + now rewrite IH.
Qed.

Lemma get_app d1 d2 k :
  get (d1 ++ d2) k = match get d1 k with Some v => Some v | None => get d2 k end.
Proof.
  induction d1 as [|[k' v'] d1 IH]; simpl; [reflexivity|].
  now destruct (String.eqb k' k).
Qed.

(** After a run of assignments a key holds the value of the last
    assignment to it. *)
Lemma get_update pairs : forall d k,
  get (update d pairs) k =
  match get (rev pairs) k with Some v => Some v | None => get d k end.
Proof.
  unfold update.
  induction pairs as [|[k0 v0] pairs IH]; intros d k; simpl; [reflexivity|].
  rewrite IH, get_app. simpl.
  destruct (get (rev pairs) k); [reflexivity|].
  destruct (String.eqb_spec k0 k) as [->|Hne].
  - apply get_set_same.
  - now apply get_set_other.
Qed.

Lemma get_of_pairs pairs k : get (of_pairs pairs) k = get (rev pairs) k.
Proof. unfold of_pairs. rewrite get_update. now destruct (get (rev pairs) k). Qed.

Lemma get_None_not_in d k : get d k = None <-> ~ In k (keys d).
Proof.
  induction d as [|[k' v'] d IH]; simpl; [tauto|].
  destruct (String.eqb_spec k' k) as [->|Hne].
  - split; [discriminate|]. intros H. elim H. now left.
  - rewrite IH. split; [intros H [Heq|Hin]; [contradiction|now apply H]|tauto].
Qed.

End DictMore.
End DictMore.

(** ** The API beyond the stated properties *)

Section FurtherApi.
Variable float : Type.
Variable float_ge : float -> float -> bool.
Variables f_zero f_one f_half : float.
Variable classifier : nat -> list string -> list string -> model_reply float.
Variable cfg : Api.config.

(** X1.  In the body of [POST /detect] an explicit [null] for [labels] or
    for [threshold], and an empty list of labels, are answered exactly as
    if the field had been left out. *)
Theorem X1_post_null_or_empty_is_as_omitted :
  forall (texts : Api.field (list string)) (labels : Api.field (list string))
         (threshold : Api.field float) (w : world float),
    Api.post_detect float_ge f_zero f_one f_half classifier cfg
      (Api.mkPostBody texts Api.Null threshold) w
    = Api.post_detect float_ge f_zero f_one f_half classifier cfg
        (Api.mkPostBody texts Api.Omitted threshold) w
    /\ Api.post_detect float_ge f_zero f_one f_half classifier cfg
         (Api.mkPostBody texts (Api.Value []) threshold) w
       = Api.post_detect float_ge f_zero f_one f_half classifier cfg
           (Api.mkPostBody texts Api.Omitted threshold) w
    /\ Api.post_detect float_ge f_zero f_one f_half classifier cfg
         (Api.mkPostBody texts labels Api.Null) w
       = Api.post_detect float_ge f_zero f_one f_half classifier cfg
           (Api.mkPostBody texts labels Api.Omitted) w.
Proof.
  intros texts labels threshold w.
  rewrite !ApiFacts.post_detect_run. simpl. repeat split; reflexivity.
Qed.

(** X2.  A body of [POST /detect] without a list of texts, or with a
    threshold outside [0,1], is answered with status 422 and the list of
    the offending fields; the world is left as it was, so the model is not
    called. *)
Theorem X2_post_invalid_body_is_422 :
  forall (b : Api.post_body float) (w : world float),
    (forall ts, Api.b_texts b <> Api.Value ts) \/
    (exists t, Api.b_threshold b = Api.Value t /\
               Api.in_bounds float_ge f_zero f_one t = false) ->
    exists details,
      details <> [] /\
      Api.post_detect float_ge f_zero f_one f_half classifier cfg b w
      = (Ok (Api.mkJSONResponse 422 (Api.ValidationError float details)), w).
Proof.
  intros b w H. rewrite ApiFacts.post_detect_run.
  destruct (Api.b_texts b) as [| |ts].
  - eexists. split; [|reflexivity]. discriminate.
  - eexists. split; [|reflexivity]. discriminate.
  - destruct H as [H|[t [Ht Hout]]]; [now elim (H ts)|].
    rewrite Ht, Hout. eexists. split; [|reflexivity]. discriminate.
Qed.

(** X3.  An empty list of texts is a valid body of [POST /detect]: the
    model is called on the empty batch, and whatever it replies the answer
    is status 200 with no results. *)
Theorem X3_post_empty_texts_reaches_the_model :
  forall (labels : list string) (w : world float) (out : raw_output float),
    classifier (length (calls w)) [] (Api.or_default (Some labels)) = Reply out ->
    Api.post_detect float_ge f_zero f_one f_half classifier cfg
      (Api.mkPostBody (Api.Value []) (Api.Value labels) Api.Omitted) w
    = (Ok (Api.mkJSONResponse 200 (Api.DetectResponse [])),
       record_call ([], Api.or_default (Some labels)) w).
Proof.
  intros labels w out Hreply.
  rewrite ApiFacts.post_detect_run. simpl.
  rewrite ApiFacts.serve_classify. simpl in *. now rewrite Hreply.
Qed.


(** X5.  A [text/plain] upload whose bytes are not UTF-8 is answered with
    status 500 and the generic "Internal Server Error"; the decoding error
    is logged and the model is not called. *)
Theorem X5_undecodable_upload_is_500 :
  forall (f : Api.file_form float) (file : Api.UploadFile) (w : world float),
    Api.f_file f = Some file ->
    Api.content_type file = Some "text/plain" ->
    Py.utf8_ok (Api.data file) = false ->
    Api.threshold_accepted float_ge f_zero f_one (Api.f_threshold f) = true ->
    Api.post_detect_file float_ge f_zero f_one f_half classifier cfg f w
    = (Ok (Api.mkJSONResponse 500 (Api.ErrorContent float "Internal Server Error")),
       World (calls w) (loads w)
             (stderr w ++ [LogError (UnexpectedError (PyException "UnicodeDecodeError"))])
             (stdout w) (written w)).
Proof.
  intros f file w Hfile Hct Hutf Hthr.
  now rewrite ApiFacts.post_detect_file_run, Hfile, Hthr, Hct, Hutf.
Qed.

(** X6.  Whatever the content of an uploaded file, the texts made of it
    are at least one, and none of them contains a newline character. *)
Theorem X6_file_texts_are_lines :
  forall content : string,
    Api.file_texts content <> [] /\
    Forall (fun l => Py.contains Py.LF l = false) (Api.file_texts content).
Proof.
  intros content. unfold Api.file_texts.
  destruct (Py.contains Py.LF content) eqn:Hnl.
  - split.
    + apply (PyMore.splitlines_from_not_nil (n:=String.length content)); [lia|].
      right. intros ->. discriminate Hnl.
    + now apply (PyMore.splitlines_from_lines (n:=String.length content)).
  - split; [discriminate|]. now repeat constructor.
Qed.


Lemma or_default_not_nil (x : option (list string)) : Api.or_default x <> [].
Proof. destruct x as [[|l ls]|]; discriminate. Qed.

Lemma labels_or_default_not_nil (ls : list string) : Api.labels_or_default ls <> [].
Proof. destruct ls; discriminate. Qed.

Lemma enveloped_error (w : world float) (sc : nat) (error : string) :
  In sc [400; 422; 500] ->
  Api.enveloped w (Ok (Api.mkJSONResponse sc (Api.ErrorContent float error)), w).
Proof.
  intros Hsc. exists (Api.mkJSONResponse sc (Api.ErrorContent float error)), w.
  split; [reflexivity|]. simpl. split; [tauto|]. split.
  - split.
    + intros ->. destruct Hsc as [H|[H|[H|[]]]]; discriminate H.
    + intros [results H]. discriminate H.
  - repeat split. now left.
Qed.

Lemma enveloped_validation (w : world float) (details : list string) :
  Api.enveloped w (Ok (Api.mkJSONResponse 422 (Api.ValidationError float details)), w).
Proof.
  exists (Api.mkJSONResponse 422 (Api.ValidationError float details)), w.
  split; [reflexivity|]. simpl. split; [tauto|]. split.
  - split; [discriminate|]. intros [results H]. discriminate H.
  - repeat split. now left.
Qed.

Lemma enveloped_classify (texts labels : list string) (t : float) (w : world float) :
  labels <> [] ->
  Api.enveloped w
    (Api.serve (Api.classify_texts float_ge classifier cfg texts labels t) w).
Proof.
  intros Hne. rewrite ApiFacts.serve_classify.
  destruct (classifier (length (calls w)) texts labels) as [out|e];
    eexists _, _; (split; [reflexivity|]); simpl.
  - split; [tauto|]. split.
    + split; [intros _; eexists; reflexivity|reflexivity].
    + repeat split. right. now exists texts, labels.
  - split; [tauto|]. split.
    + split; [discriminate|]. intros [results H]. discriminate H.
    + repeat split. right. now exists texts, labels.
Qed.

(** X7.  Whatever the request, each of the three routes answers, with
    status 200, 400, 422 or 500, and with status 200 exactly when the body
    holds results.  It calls the model at most once per request, never
    with an empty list of candidate labels, and prints nothing. *)
Theorem X7_every_request_is_answered_within_the_envelope :
  forall (m : M float (Api.JSONResponse float)) (w : world float),
    (exists b, m = Api.post_detect float_ge f_zero f_one f_half classifier cfg b) \/
    (exists q, m = Api.get_detect float_ge f_zero f_one f_half classifier cfg q) \/
    (exists f, m = Api.post_detect_file float_ge f_zero f_one f_half classifier cfg f) ->
    Api.enveloped w (m w).
Proof.
  intros m w [[b ->]|[[q ->]|[f ->]]].
  - rewrite ApiFacts.post_detect_run.
    destruct (Api.b_texts b); try apply enveloped_validation.
    destruct (match Api.b_threshold b with Api.Value t => _ | _ => true end);
      [apply enveloped_classify, or_default_not_nil|apply enveloped_validation].
  - rewrite ApiFacts.get_detect_run.
    destruct (Api.threshold_accepted _ _ _ _); [|apply enveloped_validation].
    destruct (Api.q_text q).
    + destruct (Api.ENABLE_TEXT_PARAM cfg);
        [apply enveloped_classify, labels_or_default_not_nil
        |apply enveloped_error; simpl; tauto].
    + destruct (Api.q_texts q);
        [apply enveloped_error; simpl; tauto
        |apply enveloped_classify, labels_or_default_not_nil].
  - rewrite ApiFacts.post_detect_file_run.
    destruct (Api.f_file f) as [file|]; [|apply enveloped_validation].
    destruct (Api.threshold_accepted _ _ _ _); [|apply enveloped_validation].
    destruct (Api.is_text_plain _); [|apply enveloped_error; simpl; tauto].
    destruct (Py.utf8_ok _); [apply enveloped_classify, labels_or_default_not_nil|].
    eexists _, _. split; [reflexivity|]. simpl. split; [tauto|]. split.
    + split; [discriminate|]. intros [results H]. discriminate H.
    + repeat split. now left.
Qed.

(** X8.  Whatever the model replies, the records of [classify_texts] go
    with the first texts of the batch, in order: there are as many
    records as the shorter of the batch and the reply, the i-th record
    carries the i-th text, and a successful call logs nothing. *)
Theorem X8_results_follow_a_prefix_of_the_texts :
  forall (texts labels : list string) (t : float) (w w' : world float)
         (results : list (Api.DetectResult float)),
    Api.classify_texts float_ge classifier cfg texts labels t w = (Ok results, w') ->
    exists out,
      classifier (length (calls w)) texts labels = Reply out /\
      length results = Nat.min (length texts) (length (as_list out)) /\
      map (@Api.text float) results = firstn (length results) texts /\
      w' = record_call (texts, labels) w.
Proof.
  intros texts labels t w w' results Hrun.
  apply ApiFacts.classify_texts_results in Hrun.
  destruct Hrun as [out [Hreply [-> ->]]].
  exists out. split; [exact Hreply|].
  rewrite length_map, length_combine. split; [reflexivity|]. split; [|reflexivity].
  rewrite map_map.
  change (fun x => Api.text (Api.result_of float_ge cfg t x))
    with (@fst string (raw_result float)).
  rewrite ListFacts.combine_fst_prefix.
  rewrite <- firstn_firstn. symmetry. apply firstn_all2.
  rewrite length_firstn. lia.
Qed.

(** X9.  The scores of a record map each label to the score the model
    gave it last: where the model names a label twice, the later score
    replaces the earlier one.  Where the labels are distinct, the scores
    are the labels paired with their scores in the model's order. *)
Theorem X9_scores_keep_the_last_score_of_a_label :
  forall (res : raw_result float) (l : string),
    Dict.get (label_scores res) l
    = Dict.get (rev (combine (r_labels res) (r_scores res))) l
    /\ (NoDup (r_labels res) ->
        label_scores res = combine (r_labels res) (r_scores res)).
Proof.
  intros res l. split.
  - apply DictMore.get_of_pairs.
  - intros Hnd. unfold label_scores. apply CliFacts.of_pairs_NoDup.
    unfold Dict.keys. rewrite ListFacts.combine_fst_prefix.
    rewrite <- (firstn_skipn (length (r_scores res)) (r_labels res)) in Hnd.
    now apply NoDup_app_remove_r in Hnd.
Qed.

Lemma filter_nil_weaker (A : Type) (p q : A -> bool) (l : list A) :
  (forall x, q x = true -> p x = true) -> filter p l = [] -> filter q l = [].
Proof.
  intros Hpq. induction l as [|x l IH]; simpl; [reflexivity|].
  destruct (p x) eqn:Hp; [discriminate|]. intros H.
  destruct (q x) eqn:Hq; [|now apply IH].
  rewrite (Hpq x Hq) in Hp. discriminate.
Qed.

(** X10.  Where [>=] on scores is transitive, raising the threshold never
    flags more: a label flagged at the higher threshold is flagged, with
    the same score, at the lower one, and a text that is safe at the lower
    threshold is safe at the higher one. *)
Theorem X10_a_higher_threshold_flags_no_more :
  forall (t1 t2 : float) (res : raw_result float),
    (forall a b c, float_ge a b = true -> float_ge b c = true -> float_ge a c = true) ->
    float_ge t2 t1 = true ->
    (forall l s,
       Dict.get (at_or_above float_ge t2 (label_scores res)) l = Some s ->
       Dict.get (at_or_above float_ge t1 (label_scores res)) l = Some s)
    /\ (at_or_above float_ge t1 (label_scores res) = [] ->
        at_or_above float_ge t2 (label_scores res) = [])
    /\ (forall text,
          Api.is_safe (Api.result_of float_ge cfg t1 (text, res)) = Some true ->
          Api.is_safe (Api.result_of float_ge cfg t2 (text, res)) = Some true).
Proof.
  intros t1 t2 res Htrans Hle.
  assert (Hnil : at_or_above float_ge t1 (label_scores res) = [] ->
                 at_or_above float_ge t2 (label_scores res) = []).
  { rewrite !at_or_above_filter. apply filter_nil_weaker.
    intros kv Hkv. now apply (Htrans _ t2). }
  split; [|split; [exact Hnil|]].
  - intros l s H. apply at_or_above_get in H. destruct H as [Hget Hs].
    apply at_or_above_get. split; [exact Hget|]. now apply (Htrans _ t2).
  - intros text. unfold Api.result_of; simpl.
    destruct (Api.ENABLE_FAST_DETECT cfg); [|discriminate].
    intros H. injection H as H. apply ListFacts.length_zero_iff in H.
    now rewrite (Hnil H).
Qed.

End FurtherApi.

(** ** The command line tool beyond the stated properties *)

Section FurtherCli.
Variable float : Type.
Variable float_ge : float -> float -> bool.
Variable f_half : float.
Variable classifier : nat -> list string -> list string -> model_reply float.
Variable os : Cli.os_env.

(** X11.  A [--file] that is not a file, and a [--dir] that is not a
    directory, end [main] with exit status 1 after one error line naming
    the path; nothing else has happened by then, so the model is neither
    loaded nor called. *)
Theorem X11_missing_path_exits_with_status_1 :
  forall (args : Cli.Namespace float) (w : world float),
    (forall f, Cli.given (Cli.file args) = Some f -> Cli.isfile os f = false ->
       Cli.run float_ge classifier os args w
       = (Raise (SystemExit 1), Cli.with_stderr w [LogError (FileNotFound f)]))
    /\ (forall d, Cli.given (Cli.file args) = None ->
          Cli.given (Cli.dir args) = Some d -> Cli.isdir os d = false ->
          Cli.run float_ge classifier os args w
          = (Raise (SystemExit 1), Cli.with_stderr w [LogError (DirectoryNotFound d)])).
Proof.
  intros args w. split.
  - intros f Hf Hno. apply CliFacts.run_inputs_raise.
    unfold Cli.prepare_inputs, bind. rewrite Hf, Hno.
    now destruct (Cli.given (Cli.text args)).
  - intros d Hf Hd Hno. apply CliFacts.run_inputs_raise.
    unfold Cli.prepare_inputs, bind. rewrite Hf, Hd, Hno.
    now destruct (Cli.given (Cli.text args)).
Qed.

(** X12.  A [--file] that exists but cannot be read is not skipped as a
    file of a directory would be: the exception of the read ends [main],
    before the model is loaded and with nothing logged. *)
Theorem X12_unreadable_file_argument_ends_main :
  forall (args : Cli.Namespace float) (f e : string) (w : world float),
    Cli.given (Cli.file args) = Some f ->
    Cli.isfile os f = true ->
    Cli.read_text os f = Cli.Failed e ->
    Cli.run float_ge classifier os args w = (Raise (PyException e), w).
Proof.
  intros args f e w Hf Hisfile Hread. apply CliFacts.run_inputs_raise.
  unfold Cli.prepare_inputs, bind, Cli.open_read. rewrite Hf, Hisfile, Hread.
  now destruct (Cli.given (Cli.text args)).
Qed.

Lemma warnings_length (paths : list string) :
  length (Cli.readable os paths) + length (@Cli.warnings float os paths) = length paths.
Proof.
  unfold Cli.readable, Cli.warnings.
  induction paths as [|p paths IH]; [reflexivity|].
  cbn [flat_map]. rewrite !length_app.
  destruct (Cli.read_text os p); simpl; lia.
Qed.

(** X13.  [load_texts_from_dir] never raises, however many files cannot
    be read.  For N distinct [.txt] paths found by the walk it returns the
    readable ones in the order found, each with its content, and logs one
    warning for each of the others: entries and warnings add up to N, and
    a path that could not be read is not a key. *)
Theorem X13_directory_scan_never_fails :
  forall (directory : string) (w : world float),
    NoDup (Cli.discovered os directory) ->
    exists texts warned,
      Cli.load_texts_from_dir os directory w = (Ok texts, Cli.with_stderr w warned)
      /\ Dict.keys texts = filter (Cli.can_read os) (Cli.discovered os directory)
      /\ length texts + length warned = length (Cli.discovered os directory)
      /\ (forall p content, In p (Cli.discovered os directory) ->
            Cli.read_text os p = Cli.Done content -> Dict.get texts p = Some content)
      /\ (forall p e, In p (Cli.discovered os directory) ->
            Cli.read_text os p = Cli.Failed e ->
            Dict.get texts p = None /\
            In (LogWarning (CouldNotRead p (PyException e))) warned).
Proof.
  intros directory w Hnd.
  assert (Hk : NoDup (Dict.keys (Cli.readable os (Cli.discovered os directory))))
    by now apply CliFacts.NoDup_keys_readable.
  exists (Cli.readable os (Cli.discovered os directory)),
         (@Cli.warnings float os (Cli.discovered os directory)).
  split.
  { rewrite CliFacts.load_texts_from_dir_run. now rewrite CliFacts.of_pairs_NoDup. }
  split; [apply CliFacts.keys_readable|]. split; [apply warnings_length|]. split.
  - intros p content Hin Hread. apply CliFacts.get_In; [assumption|].
    now apply CliFacts.In_readable.
  - intros p e Hin Hread. split.
    + apply DictMore.get_None_not_in. rewrite CliFacts.keys_readable.
      intros Hf. apply filter_In in Hf. destruct Hf as [_ Hcan].
      unfold Cli.can_read in Hcan. rewrite Hread in Hcan. discriminate.
    + unfold Cli.warnings. apply in_flat_map. exists p. split; [assumption|].
      rewrite Hread. now left.
Qed.

(** X14.  The walk takes a file by its extension whatever the case of
    its letters: a name ending in [.txt], [.TXT], [.Txt], ... is taken,
    and a name is taken exactly when its lower-case form is. *)
Theorem X14_extension_is_matched_in_any_case :
  forall (stem ext name : string),
    (Py.lower ext = ".txt" -> Cli.is_txt (stem ++ ext) = true)
    /\ Cli.is_txt (Py.lower name) = Cli.is_txt name.
Proof.
  intros stem ext name. unfold Cli.is_txt. split.
  - intros Hext. rewrite PyMore.lower_append, Hext. apply PyMore.endswith_append.
  - now rewrite PyMore.lower_idempotent.
Qed.

(** The dictionary that input collection builds when it succeeds. *)
Lemma prepare_inputs_value (args : Cli.Namespace float) (w w1 : world float)
    (inputs : Dict.t string) :
  Cli.prepare_inputs os args w = (Ok inputs, w1) ->
  inputs =
  let with_text := match Cli.given (Cli.text args) with
                   | Some t => Dict.set [] "<input>" t
                   | None => []
                   end in
  let with_file := match Cli.given (Cli.file args) with
                   | Some f => match Cli.read_text os f with
                               | Cli.Done content => Dict.set with_text f content
                               | Cli.Failed _ => with_text
                               end
                   | None => with_text
                   end in
  match Cli.given (Cli.dir args) with
  | Some d => Dict.update with_file
                (Dict.of_pairs (Cli.readable os (Cli.discovered os d)))
  | None => with_file
  end.
Proof.
  unfold Cli.prepare_inputs, bind, Cli.open_read.
  destruct (Cli.given (Cli.text args)) as [t|];
    destruct (Cli.given (Cli.file args)) as [f|]; cbn [ret];
    try (destruct (negb (Cli.isfile os f)); cbn [ret log raise Cli.sys_exit bind];
         [discriminate|]; destruct (Cli.read_text os f) as [content|e];
         cbn [ret raise]; [|discriminate]);
    (destruct (Cli.given (Cli.dir args)) as [d|]; cbn [ret];
     [destruct (negb (Cli.isdir os d)); cbn [ret log raise Cli.sys_exit bind];
      [discriminate|]; rewrite CliFacts.load_texts_from_dir_run|]);
    intros H; inversion H; reflexivity.
Qed.

(** X15.  The sources collected by [main] are distinct, whatever the
    flags.  With [--text] and a readable [--file] (and no [--dir]) the
    text comes first under the name "<input>" and the file second under
    its path; a file whose path is literally "<input>" takes the place of
    the text, which is then not analysed. *)
Theorem X15_sources_are_distinct_and_ordered :
  forall (args : Cli.Namespace float) (w w1 : world float) (inputs : Dict.t string),
    Cli.prepare_inputs os args w = (Ok inputs, w1) ->
    NoDup (Dict.keys inputs)
    /\ (forall t f content,
          Cli.given (Cli.text args) = Some t -> Cli.given (Cli.file args) = Some f ->
          Cli.read_text os f = Cli.Done content -> Cli.given (Cli.dir args) = None ->
          inputs = if String.eqb "<input>" f
                   then [("<input>", content)]
                   else [("<input>", t); (f, content)]).
Proof.
  intros args w w1 inputs Hprep.
  apply prepare_inputs_value in Hprep. subst inputs. split.
  - cbv zeta.
    destruct (Cli.given (Cli.dir args)); [apply DictFacts.NoDup_keys_update|];
      (destruct (Cli.given (Cli.file args)) as [f|];
       [destruct (Cli.read_text os f); [apply DictFacts.NoDup_keys_set|]|]);
      (destruct (Cli.given (Cli.text args));
       [apply DictFacts.NoDup_keys_set|]); constructor.
  - intros t f content Ht Hf Hread Hd. cbv zeta. rewrite Ht, Hf, Hread, Hd.
    simpl. now destruct (String.eqb "<input>" f).
Qed.

(** [main] after a reply of the model, up to the saving of the JSON
    document. *)
Lemma detect_and_report_then_save (args : Cli.Namespace float) (inputs : Dict.t string)
    (w : world float) (out : raw_output float) :
  Cli.load_model os = Cli.Done tt ->
  classifier (length (calls w)) (Dict.values inputs) (Cli.labels args) = Reply out ->
  exists fs,
    Cli.detect_and_report float_ge classifier os args inputs w =
    match Cli.save os args inputs (as_list out)
            (World (calls w ++ [(Dict.values inputs, Cli.labels args)])
                   (S (loads w))
                   (stderr w ++ [LogInfo LoadingModel;
                                 LogInfo (Detecting (Cli.labels args) (Cli.threshold args))])
                   (stdout w ++ flat_map (Cli.block float_ge (Cli.threshold args))
                                         (combine inputs (as_list out)))
                   (written w))
    with
    | (Ok _, w') => (Ok fs, w')
    | (Raise e, w') => (Raise e, w')
    end.
Proof.
  intros Hload Hmodel.
  cbv beta iota delta [Cli.detect_and_report bind log Cli.pipeline Cli.detect_bad_content
                          call_classifier].
  cbn [calls loads stderr stdout written]. rewrite Hload.
  cbv beta iota. cbn [calls]. rewrite Hmodel.
  cbv beta iota delta [ret].
  match goal with
  | |- context [foldM _ ?l ?a ?b] =>
      destruct (CliFacts.display_loop float_ge (Cli.threshold args) l a b) as [fs ->]
  end.
  exists fs. unfold Cli.with_stdout, record_call. cbn [calls loads stderr stdout written].
  rewrite <- app_assoc. reflexivity.
Qed.

(** X16.  A JSON document that cannot be written does not fail the run:
    when the model has answered, [main] still prints every block and
    returns normally; it logs one error line for the failed write and
    leaves no file behind. *)
Theorem X16_failed_write_is_not_fatal :
  forall (args : Cli.Namespace float) (inputs : Dict.t string) (w w1 : world float)
         (out : raw_output float) (path e : string),
    Cli.prepare_inputs os args w = (Ok inputs, w1) -> inputs <> [] ->
    Cli.load_model os = Cli.Done tt ->
    classifier (length (calls w1)) (Dict.values inputs) (Cli.labels args) = Reply out ->
    Cli.given (Cli.output args) = Some path ->
    Cli.write_text os path = Cli.Failed e ->
    exists fs,
      Cli.run float_ge classifier os args w =
      (Ok fs,
       World (calls w1 ++ [(Dict.values inputs, Cli.labels args)])
             (S (loads w1))
             (stderr w1 ++ [LogInfo LoadingModel;
                            LogInfo (Detecting (Cli.labels args) (Cli.threshold args));
                            LogError (CouldNotWrite (PyException e))])
             (stdout w1 ++ flat_map (Cli.block float_ge (Cli.threshold args))
                                    (combine inputs (as_list out)))
             (written w1)).
Proof.
  intros args inputs w w1 out path e Hprep Hne Hload Hreply Hpath Hwrite.
  destruct (detect_and_report_then_save args inputs w1 Hload Hreply) as [fs Hrun].
  exists fs. erewrite CliFacts.run_with_inputs; [|exact Hprep|exact Hne].
  rewrite Hrun. unfold Cli.save. rewrite Hpath.
  unfold try_except, bind, Cli.write. rewrite Hwrite. simpl.
  now rewrite <- app_assoc.
Qed.

(** X17.  The candidate labels of the command line are never an empty
    list, whatever is given to [--labels].  A list of labels that hold no
    comma and no white space at their ends, joined by commas, is read back
    as that list. *)
Theorem X17_labels_option_round_trip :
  forall (c : Cli.command_line float),
    Cli.labels (Cli.parse_args f_half c) <> []
    /\ (forall ls,
          ls <> [] ->
          Forall (fun l => Py.contains "," l = false /\ Py.strip l = l) ls ->
          Cli.c_labels c = Some (String.concat "," ls) ->
          Cli.labels (Cli.parse_args f_half c) = ls).
Proof.
  intros c. split.
  - simpl. destruct (Cli.c_labels c) as [s|]; [|discriminate].
    unfold Py.split. intros H. apply map_eq_nil in H.
    now apply PyMore.split_from_not_nil in H.
  - intros ls Hne Hall Hc. simpl. rewrite Hc.
    rewrite PyMore.split_join; [|assumption|].
    + clear Hc Hne. induction Hall as [|l ls [_ Hl] _ IH]; [reflexivity|].
      simpl. now rewrite Hl, IH.
    + eapply Forall_impl; [|exact Hall]. now intros l [H _].
Qed.

(** X18.  When the model cannot be loaded, [main] ends with the
    exception of the load, after the line "Loading ..." and before any
    call of the model; nothing is printed or written. *)
Theorem X18_failed_model_load_ends_main :
  forall (args : Cli.Namespace float) (inputs : Dict.t string) (w w1 : world float)
         (e : string),
    Cli.prepare_inputs os args w = (Ok inputs, w1) -> inputs <> [] ->
    Cli.load_model os = Cli.Failed e ->
    Cli.run float_ge classifier os args w
    = (Raise (PyException e),
       World (calls w1) (S (loads w1)) (stderr w1 ++ [LogInfo LoadingModel])
             (stdout w1) (written w1))
    /\ calls w1 = calls w /\ stdout w1 = stdout w /\ written w1 = written w.
Proof.
  intros args inputs w w1 e Hprep Hne Hload. split.
  - erewrite CliFacts.run_with_inputs; [|exact Hprep|exact Hne].
    now apply CliFacts.detect_and_report_load_failure.
  - destruct (CliFacts.only_logs_prepare_inputs os args w) as [r [lines Hlogs]].
    rewrite Hlogs in Hprep. inversion Hprep; subst. now repeat split.
Qed.


(** X20.  When the model has answered and the file can be written, the
    JSON document holds the threshold and the labels of the run and, for
    every source in the order of [inputs], all the scores of the model's
    answer for it, not only those at or above the threshold; its writing
    is logged. *)
Theorem X20_json_document_holds_all_scores :
  forall (args : Cli.Namespace float) (inputs : Dict.t string) (w w1 : world float)
         (out : raw_output float) (path : string),
    Cli.prepare_inputs os args w = (Ok inputs, w1) -> inputs <> [] ->
    Cli.load_model os = Cli.Done tt ->
    classifier (length (calls w1)) (Dict.values inputs) (Cli.labels args) = Reply out ->
    length (as_list out) = length inputs ->
    Cli.given (Cli.output args) = Some path ->
    Cli.write_text os path = Cli.Done tt ->
    exists fs w' doc,
      Cli.run float_ge classifier os args w = (Ok fs, w')
      /\ written w' = written w1 ++ [(path, doc)]
      /\ o_threshold doc = Cli.threshold args
      /\ o_labels doc = Cli.labels args
      /\ map fst (o_results doc) = Dict.keys inputs
      /\ map snd (o_results doc) = map (@label_scores float) (as_list out)
      /\ stderr w' = stderr w1 ++ [LogInfo LoadingModel;
                                   LogInfo (Detecting (Cli.labels args) (Cli.threshold args));
                                   LogInfo (ResultsWritten path)].
Proof.
  intros args inputs w w1 out path Hprep Hne Hload Hreply Hlen Hpath Hwrite.
  destruct (detect_and_report_then_save args inputs w1 Hload Hreply) as [fs Hrun].
  exists fs. erewrite CliFacts.run_with_inputs; [|exact Hprep|exact Hne].
  rewrite Hrun. unfold Cli.save. rewrite Hpath.
  unfold try_except, bind, Cli.write. rewrite Hwrite. simpl.
  eexists _, _. split; [reflexivity|]. simpl.
  split; [reflexivity|]. split; [reflexivity|]. split; [reflexivity|].
  assert (Hk : length (Dict.keys inputs) = length (as_list out))
    by (unfold Dict.keys; rewrite length_map; congruence).
  split; [|split].
  - cbn [o_results]. rewrite map_map. simpl. rewrite ListFacts.combine_fst_prefix.
    apply firstn_all2. lia.
  - cbn [o_results].
    transitivity (map (@label_scores float)
                    (map snd (combine (Dict.keys inputs) (as_list out)))).
    + now rewrite !map_map.
    + rewrite ListFacts.combine_snd_prefix. rewrite firstn_all2 by lia. reflexivity.
  - now rewrite <- app_assoc.
Qed.

End FurtherCli.

(** ** The settings of the API *)

(** X21.  Reloading is switched off only by setting [STC_API_RELOAD] to
    the empty string: left unset it is on, and any other value, "false"
    and "0" included, leaves it on. *)
Theorem X21_reload_is_off_only_for_the_empty_value :
  forall getenv : string -> option string,
    (Api.RELOAD getenv = false <-> getenv "STC_API_RELOAD" = Some "")
    /\ (forall value, getenv "STC_API_RELOAD" = Some value -> value <> "" ->
          Api.RELOAD getenv = true).
Proof.
  intros getenv. unfold Api.RELOAD.
  destruct (getenv "STC_API_RELOAD") as [[|c value]|]; simpl; split;
    try (split; intros H; try discriminate H; reflexivity);
    intros v Hv Hne; try reflexivity; inversion Hv; subst; now elim Hne.
Qed.

(** ** The further properties on the sample setting *)

Lemma sample_ge_transitive (a b c : Q) :
  Sample.float_ge a b = true -> Sample.float_ge b c = true -> Sample.float_ge a c = true.
Proof.
  unfold Sample.float_ge. rewrite !Qle_bool_iff. intros Hba Hcb.
  now apply (Qle_trans c b a).
Qed.

(** X2 on the sample: a threshold of 1.5. *)
Lemma X2_witness :
  exists details,
    details <> [] /\
    Api.post_detect Sample.float_ge Sample.zero Sample.one Sample.half Sample.classifier
      Sample.on (Api.mkPostBody (Api.Value ["hi"]) Api.Omitted (Api.Value (3 # 2)))
      Sample.start
    = (Ok (Api.mkJSONResponse 422 (Api.ValidationError Q details)), Sample.start).
Proof.
  apply (@X2_post_invalid_body_is_422 Q Sample.float_ge Sample.zero Sample.one
           Sample.half Sample.classifier Sample.on).
  right. exists (3 # 2). split; reflexivity.
Defined.

(** X3 on the sample: an empty list of texts. *)
Lemma X3_witness :
  Api.post_detect Sample.float_ge Sample.zero Sample.one Sample.half Sample.classifier
    Sample.on (Api.mkPostBody (Api.Value []) (Api.Value ["insult"]) Api.Omitted)
    Sample.start
  = (Ok (Api.mkJSONResponse 200 (Api.DetectResponse [])),
     record_call ([], ["insult"]) Sample.start).
Proof.
  exact (@X3_post_empty_texts_reaches_the_model Q Sample.float_ge Sample.zero Sample.one
           Sample.half Sample.classifier Sample.on ["insult"] Sample.start
           (DictList []) eq_refl).
Defined.


(** X5 on the sample: an upload that starts with the byte 255. *)
Lemma X5_witness :
  Api.post_detect_file Sample.float_ge Sample.zero Sample.one Sample.half
    Sample.classifier Sample.on (Api.mkFileForm (Some Sample.garbled) [] None) Sample.start
  = (Ok (Api.mkJSONResponse 500 (Api.ErrorContent Q "Internal Server Error")),
     World [] 0 [LogError (UnexpectedError (PyException "UnicodeDecodeError"))] [] []).
Proof.
  exact (@X5_undecodable_upload_is_500 Q Sample.float_ge Sample.zero Sample.one
           Sample.half Sample.classifier Sample.on
           (Api.mkFileForm (Some Sample.garbled) [] None) Sample.garbled Sample.start
           eq_refl eq_refl eq_refl eq_refl).
Defined.

(** X7 on the sample: a query with two texts. *)
Lemma X7_witness :
  Api.enveloped Sample.start
    (Api.get_detect Sample.float_ge Sample.zero Sample.one Sample.half Sample.classifier
       Sample.on (Api.mkGetQuery Sample.texts None [] None) Sample.start).
Proof.
  apply (@X7_every_request_is_answered_within_the_envelope Q Sample.float_ge
           Sample.zero Sample.one Sample.half Sample.classifier Sample.on _ Sample.start).
  right. left. eexists. reflexivity.
Defined.

(** X8 on the sample: two texts, a model that answers with one
    dictionary, one record. *)
Lemma X8_witness :
  exists out,
    Sample.single 0 Sample.texts seven_labels = Reply out /\
    1 = Nat.min (length Sample.texts) (length (as_list out)).
Proof.
  destruct (@X8_results_follow_a_prefix_of_the_texts Q Sample.float_ge Sample.single
              Sample.on Sample.texts seven_labels Sample.half Sample.start
              (record_call (Sample.texts, seven_labels) Sample.start)
              [Sample.first] eq_refl)
    as [out [Hreply [Hlen _]]].
  exists out. split; [exact Hreply|exact Hlen].
Defined.

(** X9 on the sample: "insult" scored 0.1 and then 0.9. *)
Lemma X9_witness :
  Dict.get (label_scores Sample.twice) "insult" = Some (9 # 10)
  /\ label_scores (Sample.answer seven_labels "hi")
     = combine seven_labels (map (Sample.score "hi") seven_labels).
Proof.
  split.
  - rewrite (proj1 (@X9_scores_keep_the_last_score_of_a_label Q Sample.twice "insult")).
    reflexivity.
  - apply (proj2 (@X9_scores_keep_the_last_score_of_a_label Q
                    (Sample.answer seven_labels "hi") "insult")).
    repeat constructor; simpl; intuition discriminate.
Defined.

(** X10 on the sample: safe at 0.5, so safe at 0.9. *)
Lemma X10_witness :
  Api.is_safe (Api.result_of Sample.float_ge Sample.on (9 # 10)
                 ("good morning", Sample.answer seven_labels "good morning"))
  = Some true.
Proof.
  apply (proj2 (proj2 (@X10_a_higher_threshold_flags_no_more Q Sample.float_ge Sample.on
                         Sample.half (9 # 10)
                         (Sample.answer seven_labels "good morning")
                         sample_ge_transitive eq_refl))).
  reflexivity.
Defined.

(** X11 on the sample: neither [nope.txt] nor [nowhere] exists. *)
Lemma X11_witness :
  Cli.run Sample.float_ge Sample.classifier Sample.os
    (Cli.parse_args Sample.half
       (Cli.mkCommandLine None (Some "nope.txt") None None None None false)) Sample.start
  = (Raise (SystemExit 1), Cli.with_stderr Sample.start [LogError (FileNotFound "nope.txt")])
  /\ Cli.run Sample.float_ge Sample.classifier Sample.os
       (Cli.parse_args Sample.half (Sample.only_dir "nowhere")) Sample.start
     = (Raise (SystemExit 1),
        Cli.with_stderr Sample.start [LogError (DirectoryNotFound "nowhere")]).
Proof.
  split.
  - exact (proj1 (@X11_missing_path_exits_with_status_1 Q Sample.float_ge
                    Sample.classifier Sample.os
                    (Cli.parse_args Sample.half
                       (Cli.mkCommandLine None (Some "nope.txt") None None None None false))
                    Sample.start)
                 "nope.txt" eq_refl eq_refl).
  - exact (proj2 (@X11_missing_path_exits_with_status_1 Q Sample.float_ge
                    Sample.classifier Sample.os
                    (Cli.parse_args Sample.half (Sample.only_dir "nowhere")) Sample.start)
                 "nowhere" eq_refl eq_refl eq_refl).
Defined.

(** X12 on the sample: [secret.txt] exists and cannot be read. *)
Lemma X12_witness :
  Cli.run Sample.float_ge Sample.classifier Sample.locked
    (Cli.parse_args Sample.half
       (Cli.mkCommandLine None (Some "secret.txt") None None None None false))
    Sample.start
  = (Raise (PyException "PermissionError"), Sample.start).
Proof.
  exact (@X12_unreadable_file_argument_ends_main Q Sample.float_ge Sample.classifier
           Sample.locked
           (Cli.parse_args Sample.half
              (Cli.mkCommandLine None (Some "secret.txt") None None None None false))
           "secret.txt" "PermissionError" Sample.start
           eq_refl eq_refl eq_refl).
Defined.

(** X13 on the sample: the three [.txt] files under [d]. *)
Lemma X13_witness :
  exists texts warned,
    Cli.load_texts_from_dir Sample.os "d" Sample.start
    = (Ok texts, Cli.with_stderr Sample.start warned)
    /\ length texts + length warned = 3.
Proof.
  destruct (@X13_directory_scan_never_fails Q Sample.os "d" Sample.start)
    as [texts [warned [Hload [_ [Hcount _]]]]].
  - vm_compute. repeat constructor; simpl; intuition discriminate.
  - exists texts, warned. split; [exact Hload|exact Hcount].
Defined.

(** X14 on the sample: [Report.TxT]. *)
Lemma X14_witness : Cli.is_txt ("Report" ++ ".TxT") = true.
Proof.
  exact (proj1 (X14_extension_is_matched_in_any_case "Report" ".TxT" "") eq_refl).
Defined.

(** X15 on the sample: a text and the file [msg.txt]. *)
Lemma X15_witness : NoDup ["<input>"; "msg.txt"].
Proof.
  exact (proj1 (@X15_sources_are_distinct_and_ordered Q Sample.os
                  (Cli.parse_args Sample.half
                     (Cli.mkCommandLine (Some "hello") (Some "msg.txt") None None None
                                        None false))
                  Sample.start Sample.start
                  [("<input>", "hello"); ("msg.txt", Sample.two_lines)] eq_refl)).
Defined.

(** X16 on the sample: nothing can be written. *)
Lemma X16_witness :
  exists fs w',
    Cli.run Sample.float_ge Sample.classifier Sample.read_only
      (Cli.parse_args Sample.half
         (Cli.mkCommandLine (Some "you fool!") None None None None (Some "o.json") false))
      Sample.start
    = (Ok fs, w')
    /\ written w' = []
    /\ stdout w' = [Flagged "<input>"; LabelLine "insult" (9 # 10)].
Proof.
  destruct (@X16_failed_write_is_not_fatal Q Sample.float_ge Sample.classifier
              Sample.read_only
              (Cli.parse_args Sample.half
                 (Cli.mkCommandLine (Some "you fool!") None None None None
                                    (Some "o.json") false))
              [("<input>", "you fool!")] Sample.start Sample.start
              (DictList [Sample.answer seven_labels "you fool!"])
              "o.json" "PermissionError"
              eq_refl ltac:(discriminate) eq_refl eq_refl eq_refl eq_refl)
    as [fs Hrun].
  exists fs. eexists. split; [exact Hrun|]. split; reflexivity.
Defined.

(** X17 on the sample: two labels, one with a space inside. *)
Lemma X17_witness :
  Cli.labels (Cli.parse_args Sample.half
                (Cli.mkCommandLine None None None (Some "insult,hate speech")
                                   None None false))
  = ["insult"; "hate speech"].
Proof.
  apply (proj2 (@X17_labels_option_round_trip Q Sample.half
                  (Cli.mkCommandLine None None None (Some "insult,hate speech")
                                     None None false))).
  - discriminate.
  - repeat constructor.
  - reflexivity.
Defined.

(** X18 on the sample: the model cannot be loaded. *)
Lemma X18_witness :
  Cli.run Sample.float_ge Sample.classifier Sample.offline
    (Cli.parse_args Sample.half Sample.only_text) Sample.start
  = (Raise (PyException "ConnectionError"), World [] 1 [LogInfo LoadingModel] [] []).
Proof.
  exact (proj1 (@X18_failed_model_load_ends_main Q Sample.float_ge Sample.classifier
                  Sample.offline (Cli.parse_args Sample.half Sample.only_text)
                  [("<input>", "you fool!")] Sample.start Sample.start "ConnectionError"
                  eq_refl ltac:(discriminate) eq_refl)).
Defined.


(** X20 on the sample: one text, written to [o.json]. *)
Lemma X20_witness :
  exists fs w' doc,
    Cli.run Sample.float_ge Sample.classifier Sample.os
      (Cli.parse_args Sample.half
         (Cli.mkCommandLine (Some "you fool!") None None None None (Some "o.json") false))
      Sample.start
    = (Ok fs, w')
    /\ written w' = [("o.json", doc)]
    /\ map snd (o_results doc) = [label_scores (Sample.answer seven_labels "you fool!")].
Proof.
  destruct (@X20_json_document_holds_all_scores Q Sample.float_ge Sample.classifier
              Sample.os
              (Cli.parse_args Sample.half
                 (Cli.mkCommandLine (Some "you fool!") None None None None
                                    (Some "o.json") false))
              [("<input>", "you fool!")] Sample.start Sample.start
              (DictList [Sample.answer seven_labels "you fool!"]) "o.json"
              eq_refl ltac:(discriminate) eq_refl eq_refl eq_refl eq_refl eq_refl)
    as [fs [w' [doc [Hrun [Hwritten [_ [_ [_ [Hscores _]]]]]]]]].
  exists fs, w', doc. split; [exact Hrun|]. split; [exact Hwritten|exact Hscores].
Defined.

(** X21 on the sample: [STC_API_RELOAD=false]. *)
Lemma X21_witness : Api.RELOAD (fun _ => Some "false") = true.
Proof.
  apply (proj2 (X21_reload_is_off_only_for_the_empty_value (fun _ => Some "false"))
               "false"); [reflexivity|discriminate].
Defined.
